(** * Employee Management System: the role-based access control of the server

    A shallow embedding of the Express router of the server (the route
    handlers for sign-up, login, the user directory, the dashboard and the
    notification flags), of the Mongoose models [models/User.js] and
    [models/Notification.js] and of the client-side helpers of
    [AuthContext.tsx] and [UserForm.tsx], followed by the properties of the
    access-control design and of the routes.

    Modelling conventions.
    - A role is one of the five strings of the schema's [enum]; it is an
      inductive type here, so strings outside the enum are outside the model.
    - An [ObjectId] is a natural number; only equality of ids is used.
    - The [Users] collection is a list of documents in insertion order; a
      MongoDB query is a value of [Query], [find] filters the collection.
    - A handler takes the collection and the request and returns the new
      collection with the response; read-only handlers return the response.
    - The [auth] middleware lives outside the router: the handlers receive
      the id it resolved ([req.user.id]) as an argument.
    - [bcrypt.hash], the generator of fresh ids and the clock are parameters;
      the tokens of [jwt.sign] are left out of the responses.
    - The [trim] and [lowercase] setters of the schema are parameters of the
      routes that build documents and of the login; the update route is
      modelled for bodies as the setters store them. *)

From Stdlib Require Import ZArith.
From stdpp Require Import base decidable option list strings.

Open Scope string_scope.

(** ** models/User.js *)

Inductive Role := master | admin | manager | tl | user.

#[global] Instance Role_eq_dec : EqDecision Role.
Proof. solve_decision. Defined.

Inductive Status := active | inactive.

#[global] Instance Status_eq_dec : EqDecision Status.
Proof. solve_decision. Defined.

Abbreviation Id := nat.

Record User := mkUser {
  _id : Id;
  firstName : string;
  lastName : string;
  email : string;
  password : string;
  phoneNum : string;
  role : Role;
  tlId : option Id;
  managerId : option Id;
  status : Status;
  department : option string;
  position : option string;
  createdAt : nat;
  updatedAt : nat
}.

(** The collection [Users]. *)
Abbreviation Directory := (list User).

(** ** The helper [canManageRole] of the router *)

Definition roleHierarchy (r : Role) : Z :=
  match r with
  | master => 4
  | admin => 3
  | manager => 2
  | tl => 1
  | user => 0
  end%Z.

Definition canManageRole (currentUserRole targetRole : Role) : bool :=
  (roleHierarchy currentUserRole >? roleHierarchy targetRole)%Z.

(** ** The helper [canManageRole] of the client, [AuthContext.tsx]

    [state_user] is [state.user], which is [null] before login. *)

Module AuthContext.

Definition roleHierarchy (r : Role) : Z :=
  match r with
  | master => 4
  | admin => 3
  | manager => 2
  | tl => 1
  | user => 0
  end%Z.

Definition canManageRole (state_user : option Role) (role : Role) : bool :=
  match state_user with
  | None => false
  | Some user_role =>
      let userRoleLevel := roleHierarchy user_role in
      let targetRoleLevel := roleHierarchy role in
      if decide (user_role = master) then true
      else (userRoleLevel >? targetRoleLevel)%Z
  end.

End AuthContext.

(** ** Queries on the collection *)

Inductive Query :=
| QAll                          (* {} *)
| QId (i : Id)                  (* { _id: i } *)
| QEmail (e : string)           (* { email: e } *)
| QRole (r : Role)              (* { role: r } *)
| QRoleIn (rs : list Role)      (* { role: { $in: rs } } *)
| QManagerId (i : Id)           (* { managerId: i } *)
| QTlId (i : Id)                (* { tlId: i } *)
| QTlIdIn (ids : list Id)       (* { tlId: { $in: ids } } *)
| QAnd (q1 q2 : Query)          (* { f1: .., f2: .. } *)
| QOr (q1 q2 : Query).          (* { $or: [q1, q2] } *)

Fixpoint matches (q : Query) (u : User) : bool :=
  match q with
  | QAll => true
  | QId i => bool_decide (_id u = i)
  | QEmail e => bool_decide (email u = e)
  | QRole r => bool_decide (role u = r)
  | QRoleIn rs => bool_decide (role u ∈ rs)
  | QManagerId i => bool_decide (managerId u = Some i)
  | QTlId i => bool_decide (tlId u = Some i)
  | QTlIdIn ids =>
      match tlId u with
      | Some t => bool_decide (t ∈ ids)
      | None => false
      end
  | QAnd q1 q2 => matches q1 u && matches q2 u
  | QOr q1 q2 => matches q1 u || matches q2 u
  end.

(** [Users.find(q)], [Users.findOne(q)], [Users.findById(i)] and
    [Users.countDocuments(q)]. *)
Definition find (q : Query) (d : Directory) : list User :=
  filter (fun u => matches q u) d.

Definition findOne (q : Query) (d : Directory) : option User :=
  head (find q d).

Definition findById (i : Id) (d : Directory) : option User :=
  findOne (QId i) d.

Definition countDocuments (q : Query) (d : Directory) : nat :=
  length (find q d).

(** [.select('_id')]: Mongoose casts a document met where an [ObjectId] is
    expected (the [$in] of the manager's query) to its [_id]. *)
Definition select_id (us : list User) : list Id := map _id us.

(** [.select('-password')]: the document without its [password] field. *)
Record UserView := mkUserView {
  v_id : Id;
  v_firstName : string;
  v_lastName : string;
  v_email : string;
  v_phoneNum : string;
  v_role : Role;
  v_tlId : option Id;
  v_managerId : option Id;
  v_status : Status;
  v_department : option string;
  v_position : option string;
  v_createdAt : nat;
  v_updatedAt : nat
}.

Definition select_minus_password (u : User) : UserView :=
  {| v_id := _id u;
     v_firstName := firstName u;
     v_lastName := lastName u;
     v_email := email u;
     v_phoneNum := phoneNum u;
     v_role := role u;
     v_tlId := tlId u;
     v_managerId := managerId u;
     v_status := status u;
     v_department := department u;
     v_position := position u;
     v_createdAt := createdAt u;
     v_updatedAt := updatedAt u |}.

(** The document [u] with its [password] field set to [p]. *)
Definition with_password (p : string) (u : User) : User :=
  {| _id := _id u;
     firstName := firstName u;
     lastName := lastName u;
     email := email u;
     password := p;
     phoneNum := phoneNum u;
     role := role u;
     tlId := tlId u;
     managerId := managerId u;
     status := status u;
     department := department u;
     position := position u;
     createdAt := createdAt u;
     updatedAt := updatedAt u |}.

(** ** Responses: [res.status(code).json({ message, ... })] *)

Record Response (A : Type) := mkResponse {
  code : nat;
  message : option string;
  data : option A
}.
Arguments mkResponse {A} _ _ _.
Arguments code {A} _.
Arguments message {A} _.
Arguments data {A} _.

Definition fail {A} (c : nat) (m : string) : Response A :=
  mkResponse c (Some m) None.

Definition json {A} (x : A) : Response A :=
  mkResponse 200 None (Some x).

Definition json_msg {A} (c : nat) (m : string) (x : option A) : Response A :=
  mkResponse c (Some m) x.

(** ** GET /api/me *)

Definition getMe (d : Directory) (req_user_id : Id) : Response UserView :=
  match findById req_user_id d with
  | None => fail 404 "User not found"
  | Some u => json (select_minus_password u)
  end.

(** ** GET /api/users *)

Definition usersQuery (d : Directory) (currentUser : User) : Query :=
  let query := QAll in
  if decide (role currentUser <> master) then
    if decide (role currentUser = admin) then
      QRoleIn [manager; tl; user]
    else if decide (role currentUser = manager) then
      QOr (QManagerId (_id currentUser))
          (QTlIdIn (select_id (find (QManagerId (_id currentUser)) d)))
    else if decide (role currentUser = tl) then
      QTlId (_id currentUser)
    else query
  else query.

(** The documents the listing returns to [currentUser], before the
    projection. *)
Definition visibleUsers (d : Directory) (currentUser : User) : list User :=
  find (usersQuery d currentUser) d.

Definition getUsers (d : Directory) (req_user_id : Id)
  : Response (list UserView) :=
  match findById req_user_id d with
  | None => fail 404 "User not found"
  | Some currentUser =>
      json (map select_minus_password (visibleUsers d currentUser))
  end.

(** ** GET /api/users/:id

    The handler sits behind [auth] but never reads [req.user]. *)

Definition getUserById (d : Directory) (req_user_id : Id) (params_id : Id)
  : Response UserView :=
  match findById params_id d with
  | None => fail 404 "User not found"
  | Some u => json (select_minus_password u)
  end.

(** ** GET /api/dashboard/stats *)

Inductive Stats :=
| MasterStats (totalEmployees admins managers teamLeaders users : nat)
| AdminStats (managers teamLeaders users : nat)
| ManagerStats (managerTeamLeaders managerTeamMembers : nat)
| TlStats (tlTeamMembers : nat)
| NoStats.                      (* {} *)

Definition dashboardStats (d : Directory) (req_user_id : Id) : Response Stats :=
  match findById req_user_id d with
  | None => fail 404 "User not found"
  | Some currentUser =>
      let i := _id currentUser in
      json
        (if decide (role currentUser = master) then
           MasterStats (countDocuments QAll d)
                       (countDocuments (QRole admin) d)
                       (countDocuments (QRole manager) d)
                       (countDocuments (QRole tl) d)
                       (countDocuments (QRole user) d)
         else if decide (role currentUser = admin) then
           AdminStats (countDocuments (QRole manager) d)
                      (countDocuments (QRole tl) d)
                      (countDocuments (QRole user) d)
         else if decide (role currentUser = manager) then
           ManagerStats
             (countDocuments (QAnd (QManagerId i) (QRole tl)) d)
             (countDocuments
                (QOr (QAnd (QManagerId i) (QRole user))
                     (QTlIdIn
                        (select_id (find (QAnd (QManagerId i) (QRole tl)) d))))
                d)
         else if decide (role currentUser = tl) then
           TlStats (countDocuments (QAnd (QTlId i) (QRole user)) d)
         else NoStats)
  end.

(** ** PUT /api/users/:id

    A field of the body is [None] when it is [undefined]; the two links can
    also be sent as [null], which is [Some None]. The handler is modelled
    for requests whose role, when present, is one of the five strings of the
    schema, whose strings are given as the setters of the schema store
    them, and whose path id is in the spelling of [toString], so that the
    comparison of [currentUser._id.toString()] with [req.params.id] is the
    comparison of the ids. *)

Record UpdateBody := mkUpdateBody {
  ub_firstName : option string;
  ub_lastName : option string;
  ub_email : option string;
  ub_phoneNum : option string;
  ub_role : option Role;
  ub_department : option string;
  ub_position : option string;
  ub_tlId : option (option Id);
  ub_managerId : option (option Id);
  ub_status : option Status
}.

(** [{ $set: updates }] once the undefined fields are removed. *)
Definition applyUpdates (b : UpdateBody) (u : User) : User :=
  {| _id := _id u;
     firstName := default (firstName u) (ub_firstName b);
     lastName := default (lastName u) (ub_lastName b);
     email := default (email u) (ub_email b);
     password := password u;
     phoneNum := default (phoneNum u) (ub_phoneNum b);
     role := default (role u) (ub_role b);
     tlId := default (tlId u) (ub_tlId b);
     managerId := default (managerId u) (ub_managerId b);
     status := default (status u) (ub_status b);
     department := from_option Some (department u) (ub_department b);
     position := from_option Some (position u) (ub_position b);
     createdAt := createdAt u;
     updatedAt := updatedAt u |}.

(** The first document whose [_id] is [i] is replaced by its image. *)
Fixpoint updateFirst (i : Id) (f : User -> User) (d : Directory) : Directory :=
  match d with
  | [] => []
  | u :: d' =>
      if decide (_id u = i) then f u :: d' else u :: updateFirst i f d'
  end.

(** The unique index on [email]: the write throws when another document
    already holds the new email. *)
Definition emailTaken (i : Id) (b : UpdateBody) (d : Directory) : bool :=
  match ub_email b with
  | None => false
  | Some e =>
      bool_decide (Exists (fun u => _id u <> i /\ email u = e) d)
  end.

Definition updateUser (d : Directory) (req_user_id params_id : Id)
    (body : UpdateBody) : Directory * Response UserView :=
  match findById req_user_id d with
  | None => (d, fail 404 "User not found")
  | Some currentUser =>
      match findById params_id d with
      | None => (d, fail 404 "User to update not found")
      | Some userToUpdate =>
          if bool_decide (_id currentUser <> params_id)
             && negb (canManageRole (role currentUser) (role userToUpdate))
          then (d, fail 403 "You don't have permission to update this user")
          else
            let role_denied :=
              match ub_role body with
              | Some r =>
                  bool_decide (r <> role userToUpdate)
                  && bool_decide (_id currentUser <> params_id)
                  && negb (canManageRole (role currentUser) r)
              | None => false
              end in
            if role_denied
            then (d, fail 403 "You don't have permission to assign this role")
            else if emailTaken params_id body d
            then (d, fail 500 "Internal server error")
            else
              (updateFirst params_id (applyUpdates body) d,
               json_msg 200 "User updated successfully"
                 (Some (select_minus_password
                          (applyUpdates body userToUpdate))))
      end
  end.

(** ** DELETE /api/users/:id *)

Fixpoint deleteFirst (i : Id) (d : Directory) : Directory :=
  match d with
  | [] => []
  | u :: d' => if decide (_id u = i) then d' else u :: deleteFirst i d'
  end.

Definition hasSubordinates (d : Directory) (params_id : Id) : option User :=
  findOne (QOr (QTlId params_id) (QManagerId params_id)) d.

Definition deleteUser (d : Directory) (req_user_id params_id : Id)
  : Directory * Response unit :=
  match findById req_user_id d with
  | None => (d, fail 404 "User not found")
  | Some currentUser =>
      match findById params_id d with
      | None => (d, fail 404 "User to delete not found")
      | Some userToDelete =>
          if negb (canManageRole (role currentUser) (role userToDelete))
          then (d, fail 403 "You don't have permission to delete this user")
          else
            match hasSubordinates d params_id with
            | Some _ =>
                (d, fail 400
                  "Cannot delete user with subordinates. Reassign subordinates first.")
            | None =>
                (deleteFirst params_id d,
                 json_msg 200 "User deleted successfully" None)
            end
      end
  end.

(** ** The two routes that insert documents *)

(** [newUser.save()] appends the document to the collection. *)
Definition insertOne (u : User) (d : Directory) : Directory :=
  (d ++ [u])%list.

(** JavaScript's [!s] on a body field: [undefined] and the empty string are
    falsy. *)
Definition falsy (s : option string) : bool :=
  match s with
  | None => true
  | Some s => bool_decide (s = "")
  end.

Record SignUpBody := mkSignUpBody {
  su_firstName : option string;
  su_lastName : option string;
  su_email : option string;
  su_password : option string;
  su_phoneNum : option string
}.

Record SignUpView := mkSignUpView {
  sv_firstName : string;
  sv_lastName : string;
  sv_email : string
}.

Record CreateBody := mkCreateBody {
  cb_firstName : option string;
  cb_lastName : option string;
  cb_email : option string;
  cb_password : option string;
  cb_phoneNum : option string;
  cb_role : option Role;
  cb_department : option string;
  cb_position : option string;
  cb_tlId : option Id;          (* [None]: undefined or null *)
  cb_managerId : option Id
}.

Record CreatedView := mkCreatedView {
  cv_id : Id;
  cv_firstName : string;
  cv_lastName : string;
  cv_email : string;
  cv_role : Role;
  cv_department : option string;
  cv_position : option string
}.

Section Insertion.

(** The setters of the schema, which Mongoose runs when a document is built
    and when a query is cast: [trim] is the setter of the paths declared
    with [trim: true], [email_setters] is the composition of the [trim] and
    [lowercase] setters of the path [email]. Then [bcrypt.hash(_, 10)], the
    [_id] Mongoose gives the new document and [Date.now]. *)
Variable trim : string -> string.
Variable email_setters : string -> string.
Variable bcrypt_hash : string -> string.
Variable new_id : Id.
Variable now : nat.

(** [Users.findOne({ email })]: the query is cast with the setters of the
    path; an undefined email is sent as [null] and matches no document. *)
Definition findByEmail (e : option string) (d : Directory) : option User :=
  match e with
  | Some e => findOne (QEmail (email_setters e)) d
  | None => None
  end.

(** The [required] validators that [save()] runs on the five required
    strings, after the setters. *)
Definition requiredOk (u : User) : bool :=
  negb (falsy (Some (firstName u))) && negb (falsy (Some (lastName u)))
  && negb (falsy (Some (email u))) && negb (falsy (Some (password u)))
  && negb (falsy (Some (phoneNum u))).

(** POST /api/SignUp: no [auth] middleware on this route. The schema's
    defaults fill role, links and status; a document refused by the
    validators ends in the [catch] branch. *)
Definition signUp (d : Directory) (body : SignUpBody)
  : Directory * Response SignUpView :=
  match su_firstName body, su_lastName body, su_email body,
        su_password body, su_phoneNum body with
  | Some fn, Some ln, Some em, Some pw, Some ph =>
      if falsy (Some fn) || falsy (Some ln) || falsy (Some em)
         || falsy (Some pw) || falsy (Some ph)
      then (d, fail 400 "All fields are required")
      else
        match findByEmail (Some em) d with
        | Some _ => (d, fail 400 "Email already exists")
        | None =>
            let newUser :=
              {| _id := new_id; firstName := trim fn; lastName := trim ln;
                 email := email_setters em; password := bcrypt_hash pw;
                 phoneNum := ph;
                 role := user; tlId := None; managerId := None;
                 status := active; department := None; position := None;
                 createdAt := now; updatedAt := now |} in
            if negb (requiredOk newUser)
            then (d, fail 500 "Internal server error")
            else
              (insertOne newUser d,
               json_msg 201 "User signed up successfully"
                 (Some {| sv_firstName := firstName newUser;
                          sv_lastName := lastName newUser;
                          sv_email := email newUser |}))
        end
  | _, _, _, _, _ => (d, fail 400 "All fields are required")
  end.

(** POST /api/users. [bcrypt.hash] throws on a missing password and
    [newUser.save()] runs the validators: both end in the [catch] branch. *)
Definition createUser (d : Directory) (req_user_id : Id) (body : CreateBody)
  : Directory * Response CreatedView :=
  match findById req_user_id d with
  | None => (d, fail 404 "User not found")
  | Some currentUser =>
      match cb_role body with
      | None =>
          (d, fail 403
             "You don't have permission to create users with this role")
      | Some r =>
          if negb (canManageRole (role currentUser) r)
          then (d, fail 403
                  "You don't have permission to create users with this role")
          else if bool_decide (r = user) && bool_decide (cb_tlId body = None)
          then (d, fail 400 "Users must have a Team Leader")
          else if (bool_decide (r = user) || bool_decide (r = tl))
                  && bool_decide (cb_managerId body = None)
          then (d, fail 400 "Users and Team Leaders must have a Manager")
          else
            match findByEmail (cb_email body) d with
            | Some _ => (d, fail 400 "Email already exists")
            | None =>
                match cb_firstName body, cb_lastName body, cb_email body,
                      cb_password body, cb_phoneNum body with
                | Some fn, Some ln, Some em, Some pw, Some ph =>
                    let newUser :=
                      {| _id := new_id; firstName := trim fn;
                         lastName := trim ln; email := email_setters em;
                         password := bcrypt_hash pw;
                         phoneNum := ph; role := r;
                         tlId := cb_tlId body;
                         managerId := cb_managerId body;
                         status := active;
                         department := trim <$> cb_department body;
                         position := trim <$> cb_position body;
                         createdAt := now; updatedAt := now |} in
                    if negb (requiredOk newUser)
                    then (d, fail 500 "Internal server error")
                    else
                      (insertOne newUser d,
                       json_msg 201 "User created successfully"
                         (Some {| cv_id := _id newUser;
                                  cv_firstName := firstName newUser;
                                  cv_lastName := lastName newUser;
                                  cv_email := email newUser;
                                  cv_role := role newUser;
                                  cv_department := department newUser;
                                  cv_position := position newUser |}))
                | _, _, _, _, _ => (d, fail 500 "Internal server error")
                end
            end
      end
  end.

End Insertion.

(** [String.prototype.trim] and [String.prototype.toLowerCase] on strings
    of ASCII characters, to run the routes on sample requests. *)
Definition isSpace (c : Ascii.ascii) : bool :=
  let n := Ascii.nat_of_ascii c in
  (9 <=? n)%nat && (n <=? 13)%nat || (n =? 32)%nat.

Fixpoint trimStart (s : string) : string :=
  match s with
  | String c s' => if isSpace c then trimStart s' else s
  | EmptyString => EmptyString
  end.

Definition reverse (s : string) : string :=
  String.string_of_list_ascii (rev (String.list_ascii_of_string s)).

Definition asciiTrim (s : string) : string :=
  reverse (trimStart (reverse (trimStart s))).

Definition lowerChar (c : Ascii.ascii) : Ascii.ascii :=
  let n := Ascii.nat_of_ascii c in
  if (65 <=? n)%nat && (n <=? 90)%nat then Ascii.ascii_of_nat (n + 32) else c.

Fixpoint asciiToLowerCase (s : string) : string :=
  match s with
  | String c s' => String (lowerChar c) (asciiToLowerCase s')
  | EmptyString => EmptyString
  end.

Definition asciiEmail (s : string) : string :=
  asciiTrim (asciiToLowerCase s).

(** ** A sample collection: the dummy users of the seeding script

    The master admin, one admin, two managers, three team leaders and four
    users, with the reporting hierarchy the script sets up in its second
    pass. Ids follow the order of insertion. *)

Definition doc (i : Id) (fn ln em ph : string) (r : Role)
    (mgr tl_ : option Id) : User :=
  {| _id := i; firstName := fn; lastName := ln; email := em;
     password := "$2b$10$" ++ em; phoneNum := ph; role := r;
     tlId := tl_; managerId := mgr; status := active;
     department := None; position := None; createdAt := 0; updatedAt := 0 |}.

Definition masteradmin :=
  doc 1 "Master" "Admin" "masteradmin@gmail.com" "1111111111" master None None.
Definition admin1 :=
  doc 2 "Admin" "One" "admin1@example.com" "2222222222" admin None None.
Definition manager1 :=
  doc 3 "Manager" "One" "manager1@example.com" "3333333333" manager
      (Some 2) None.
Definition manager2 :=
  doc 4 "Manager" "Two" "manager2@example.com" "4444444444" manager
      (Some 2) None.
Definition tl1 :=
  doc 5 "Team Leader" "One" "tl1@example.com" "5555555555" tl (Some 3) None.
Definition tl2 :=
  doc 6 "Team Leader" "Two" "tl2@example.com" "6666666666" tl (Some 3) None.
Definition tl3 :=
  doc 7 "Team Leader" "Three" "tl3@example.com" "7777777777" tl (Some 4) None.
Definition user1 :=
  doc 8 "User" "One" "user1@example.com" "8888888888" user (Some 3) (Some 5).
Definition user2 :=
  doc 9 "User" "Two" "user2@example.com" "9999999999" user (Some 3) (Some 5).
Definition user3 :=
  doc 10 "User" "Three" "user3@example.com" "1010101010" user
      (Some 3) (Some 6).
Definition user4 :=
  doc 11 "User" "Four" "user4@example.com" "1212121212" user
      (Some 4) (Some 7).

Definition dummyUsers : Directory :=
  [masteradmin; admin1; manager1; manager2; tl1; tl2; tl3;
   user1; user2; user3; user4].

(** ** Scenarios and the claims in the words of the design *)

(** The rule of the design for a manager, in its words: collect the ids of
    the documents with [managerId == actor.id] and [role == tl], then take
    the direct reports together with every document whose [tlId] is in that
    set. *)
Definition visibleUsers_manager_spec (d : Directory) (actor : User)
  : list User :=
  let tl_ids :=
    select_id (find (QAnd (QManagerId (_id actor)) (QRole tl)) d) in
  find (QOr (QManagerId (_id actor)) (QTlIdIn tl_ids)) d.

(** Bodies of update requests that carry one field: [{ role: r }] and
    [{ managerId: m }]. *)
Definition setRole (r : Role) : UpdateBody :=
  {| ub_firstName := None; ub_lastName := None; ub_email := None;
     ub_phoneNum := None; ub_role := Some r; ub_department := None;
     ub_position := None; ub_tlId := None; ub_managerId := None;
     ub_status := None |}.

Definition setManagerId (m : option Id) : UpdateBody :=
  {| ub_firstName := None; ub_lastName := None; ub_email := None;
     ub_phoneNum := None; ub_role := None; ub_department := None;
     ub_position := None; ub_tlId := None; ub_managerId := Some m;
     ub_status := None |}.

(** Two updates by the master admin on the seed data: [tl2] is demoted to
    the role [user], then [user3] is handed over to [manager2] and keeps its
    [tlId]. *)
Definition afterDemotion : Directory :=
  let d1 := fst (updateUser dummyUsers (_id masteradmin) (_id tl2)
                   (setRole user)) in
  fst (updateUser d1 (_id masteradmin) (_id user3) (setManagerId (Some 4))).

(** The claim C5 as it is worded: after a self-update the stored role is
    the old one, or one the actor's old role could assign, and the two links
    are the old ones. *)
Definition self_update_keeps_role_and_links
    (d : Directory) (i : Id) (b : UpdateBody) : Prop :=
  forall u u',
    findById i d = Some u ->
    findById i (fst (updateUser d i i b)) = Some u' ->
    (role u' = role u \/ canManageRole (role u) (role u') = true)
    /\ managerId u' = managerId u
    /\ tlId u' = tlId u.

(** The claim C7 as it is worded: a document that an operation has inserted
    has a creator in the collection whose role manages the document's
    role. *)
Definition inserted_by_privileged_creator (d d' : Directory) : Prop :=
  forall newUser,
    d' = insertOne newUser d ->
    exists creator,
      creator ∈ d /\ canManageRole (role creator) (role newUser) = true.

(** The claim C9 as it is worded, for one actor of each role. *)
Definition scope_chain (d : Directory) (ma a m t u : User) : Prop :=
  length (visibleUsers d ma) >= length (visibleUsers d a)
  /\ length (visibleUsers d a) >= length (visibleUsers d m)
  /\ length (visibleUsers d m) >= length (visibleUsers d t)
  /\ length (visibleUsers d t) >= length (visibleUsers d u)
  /\ length (visibleUsers d u) = 0.

(** The seed data after the admin has created a third manager, who has no
    reports yet. *)
Definition manager3 : User :=
  with_password "$2b$10$password"
    (doc 12 "Manager" "Three" "manager3@example.com" "1313131313" manager
         (Some 2) None).

Definition withManager3 : Directory := insertOne manager3 dummyUsers.

(** [v] is [u] with another value in its [password] field, and two
    collections differ only in passwords when their documents do so one by
    one. *)
Definition same_but_password (u v : User) : Prop :=
  v = with_password (password v) u.

Definition differ_only_in_passwords (d1 d2 : Directory) : Prop :=
  Forall2 same_but_password d1 d2.

(** ** POST /api/login

    The lookup is cast with the setters of the email path. [bcrypt.compare]
    is a parameter; it throws on an undefined password, which ends in the
    [catch] branch. *)

Record LoginBody := mkLoginBody {
  lb_email : option string;
  lb_password : option string
}.

Record LoginView := mkLoginView {
  lv_id : Id;
  lv_firstName : string;
  lv_lastName : string;
  lv_email : string;
  lv_role : Role;
  lv_department : option string;
  lv_position : option string;
  lv_status : Status
}.

Definition loginView (u : User) : LoginView :=
  {| lv_id := _id u; lv_firstName := firstName u; lv_lastName := lastName u;
     lv_email := email u; lv_role := role u; lv_department := department u;
     lv_position := position u; lv_status := status u |}.

Definition login (email_setters : string -> string)
    (bcrypt_compare : string -> string -> bool)
    (d : Directory) (body : LoginBody) : Response LoginView :=
  match findByEmail email_setters (lb_email body) d with
  | None => fail 404 "User not found"
  | Some u =>
      match lb_password body with
      | None => fail 500 "Internal server error"
      | Some pw =>
          let isPasswordValid := bcrypt_compare pw (password u) in
          if negb isPasswordValid then fail 401 "Invalid password"
          else json_msg 200 "Login successful" (Some (loginView u))
      end
  end.

(** ** models/Notification.js and the two routes that mark notifications

    GET /api/notifications sorts by date and leaves the order among equal
    dates to the database; it is not modelled. *)

Inductive NotificationType := info | warning | success | error.

Record Notification := mkNotification {
  n_id : Id;
  n_user : Id;
  n_title : string;
  n_message : string;
  n_read : bool;
  n_type : NotificationType;
  n_createdAt : nat
}.

(** [{ $set: { read: true } }]. *)
Definition setRead (n : Notification) : Notification :=
  {| n_id := n_id n; n_user := n_user n; n_title := n_title n;
     n_message := n_message n; n_read := true; n_type := n_type n;
     n_createdAt := n_createdAt n |}.

(** [Notification.findOneAndUpdate({ _id, user }, ..., { new: true })]: the
    first notification with that id and that owner is replaced, and the new
    version is returned. *)
Fixpoint findOneAndSetRead (i usr : Id) (ns : list Notification)
  : list Notification * option Notification :=
  match ns with
  | [] => ([], None)
  | n :: ns' =>
      if bool_decide (n_id n = i) && bool_decide (n_user n = usr)
      then (setRead n :: ns', Some (setRead n))
      else let (ns'', r) := findOneAndSetRead i usr ns' in (n :: ns'', r)
  end.

(** PUT /api/notifications/:id/mark-read *)
Definition markRead (ns : list Notification) (req_user_id params_id : Id)
  : list Notification * Response Notification :=
  match findOneAndSetRead params_id req_user_id ns with
  | (_, None) =>
      (ns, fail 404 "Notification not found or does not belong to user")
  | (ns', Some n) => (ns', json_msg 200 "Notification marked as read" (Some n))
  end.

(** PUT /api/notifications/mark-all-read:
    [Notification.updateMany({ user, read: false }, ...)]. *)
Definition markAllRead (ns : list Notification) (req_user_id : Id)
  : list Notification * Response unit :=
  (map (fun n =>
          if bool_decide (n_user n = req_user_id)
             && bool_decide (n_read n = false)
          then setRead n else n) ns,
   json_msg 200 "All notifications marked as read" None).

(** ** The client: the roles offered by [UserForm.tsx] *)

Definition availableRoles (state_user : option Role) : list Role :=
  filter (fun r => AuthContext.canManageRole state_user r)
         [user; tl; manager; admin; master].

(** ** The client: [AuthReducer] of [AuthContext.tsx]

    The reducer is generic in the shape of the user object: [CUser] is the
    client's [User], [CPartial] its [Partial<User>], and [spread u p] is
    [{ ...u, ...p }]. The [token] item of [localStorage], which LOGOUT
    removes, is carried beside the state. *)

Module AuthReducer.
Section Reducer.

Variables CUser CPartial : Type.
Variable spread : CUser -> CPartial -> CUser.

Record AuthState := mkAuthState {
  st_user : option CUser;
  isAuthenticated : bool;
  isLoading : bool;
  st_error : option string
}.

Inductive AuthAction :=
| LOGIN_START
| LOGIN_SUCCESS (payload : CUser)
| LOGIN_FAILURE (payload : string)
| LOGOUT
| UPDATE_USER (payload : CPartial).

Definition initialState : AuthState :=
  {| st_user := None; isAuthenticated := false; isLoading := false;
     st_error := None |}.

Definition AuthReducer (state : AuthState) (token : option string)
    (action : AuthAction) : AuthState * option string :=
  match action with
  | LOGIN_START =>
      ({| st_user := st_user state; isAuthenticated := isAuthenticated state;
          isLoading := true; st_error := None |}, token)
  | LOGIN_SUCCESS payload =>
      ({| st_user := Some payload; isAuthenticated := true;
          isLoading := false; st_error := None |}, token)
  | LOGIN_FAILURE payload =>
      ({| st_user := None; isAuthenticated := false;
          isLoading := false; st_error := Some payload |}, token)
  | LOGOUT => (initialState, None)
  | UPDATE_USER payload =>
      ({| st_user :=
            match st_user state with
            | Some u => Some (spread u payload)
            | None => None
            end;
          isAuthenticated := isAuthenticated state;
          isLoading := isLoading state; st_error := st_error state |}, token)
  end.

(** The state after a sequence of dispatched actions. *)
Definition dispatchAll (actions : list AuthAction)
    (s : AuthState * option string) : AuthState * option string :=
  foldl (fun s a => AuthReducer (fst s) (snd s) a) s actions.

End Reducer.
End AuthReducer.

(** ** Invariants of the collection used by the properties below *)

(** Every link names a document of the collection. *)
Definition links_resolve (d : Directory) : Prop :=
  forall u i,
    u ∈ d -> managerId u = Some i \/ tlId u = Some i ->
    exists x, x ∈ d /\ _id x = i.

(** * Properties *)

(** ** Basic facts on queries *)

Lemma elem_of_find q d u : u ∈ find q d <-> matches q u = true /\ u ∈ d.
Proof.
  unfold find. rewrite list_elem_of_filter, Is_true_true. reflexivity.
Qed.

Lemma findOne_Some q d u :
  findOne q d = Some u -> matches q u = true /\ u ∈ d.
Proof.
  unfold findOne. intros H. apply elem_of_find.
  destruct (find q d) as [|x l] eqn:E; simpl in H; [discriminate|].
  injection H as ->. left.
Qed.

Lemma findOne_None q d :
  findOne q d = None <-> forall u, u ∈ d -> matches q u = false.
Proof.
  unfold findOne. split.
  - intros H u Hu. destruct (matches q u) eqn:E; [|reflexivity].
    assert (Hin : u ∈ find q d) by (apply elem_of_find; auto).
    destruct (find q d); [inversion Hin | discriminate].
  - intros H. destruct (find q d) as [|x l] eqn:E; [reflexivity|].
    assert (Hin : x ∈ find q d) by (rewrite E; left).
    apply elem_of_find in Hin as [Hm Hx]. rewrite (H x Hx) in Hm.
    discriminate.
Qed.

Lemma findById_Some i d u : findById i d = Some u -> _id u = i /\ u ∈ d.
Proof.
  intros H. apply findOne_Some in H as [Hm Hu]. split; [|assumption].
  simpl in Hm. apply bool_decide_eq_true in Hm. assumption.
Qed.

Lemma find_length_le q d : length (find q d) <= length d.
Proof. unfold find. apply length_filter. Qed.

(** ** The role ladder *)

Lemma canManageRole_rank r1 r2 :
  canManageRole r1 r2 = true <-> (roleHierarchy r1 > roleHierarchy r2)%Z.
Proof. unfold canManageRole. rewrite Z.gtb_gt. reflexivity. Qed.

Lemma canManageRole_irrefl r : canManageRole r r = false.
Proof. destruct r; reflexivity. Qed.

Lemma AuthContext_canManageRole_rank r1 r2 :
  AuthContext.canManageRole (Some r1) r2 = true
  <-> (r1 = master \/ (roleHierarchy r1 > roleHierarchy r2)%Z).
Proof.
  unfold AuthContext.canManageRole. case_decide as Hm.
  - tauto.
  - rewrite Z.gtb_gt. change AuthContext.roleHierarchy with roleHierarchy.
    tauto.
Qed.

(** C1. The server's [canManageRole] is the strict comparison of ranks for
    every pair of roles, so a master does not manage a master, while the
    client's helper of the same name returns true for every target role
    once the actor is a master: the master override of the claim is in the
    client only. *)
Theorem canManageRole_master_master :
  (forall r1 r2,
     canManageRole r1 r2 = true <-> (roleHierarchy r1 > roleHierarchy r2)%Z)
  /\ canManageRole master master = false
  /\ (forall r, AuthContext.canManageRole (Some master) r = true).
Proof.
  split; [exact canManageRole_rank|]. split; [reflexivity|].
  intros r. reflexivity.
Qed.

(** ** The directory listing, role by role *)

Lemma find_all d : find QAll d = d.
Proof.
  unfold find. induction d as [|u d IH]; [reflexivity|].
  rewrite filter_cons_True by exact I. f_equal. exact IH.
Qed.

Lemma visibleUsers_master d cu : role cu = master -> visibleUsers d cu = d.
Proof.
  intros H. unfold visibleUsers, usersQuery. rewrite H. simpl. apply find_all.
Qed.

Lemma visibleUsers_admin d cu :
  role cu = admin -> visibleUsers d cu = find (QRoleIn [manager; tl; user]) d.
Proof. intros H. unfold visibleUsers, usersQuery. rewrite H. reflexivity. Qed.

Lemma visibleUsers_manager d cu :
  role cu = manager ->
  visibleUsers d cu =
  find (QOr (QManagerId (_id cu))
            (QTlIdIn (select_id (find (QManagerId (_id cu)) d)))) d.
Proof. intros H. unfold visibleUsers, usersQuery. rewrite H. reflexivity. Qed.

Lemma visibleUsers_tl d cu :
  role cu = tl -> visibleUsers d cu = find (QTlId (_id cu)) d.
Proof. intros H. unfold visibleUsers, usersQuery. rewrite H. reflexivity. Qed.

(** No branch of the filter is taken for the role [user]: the query stays
    [{}]. *)
Lemma visibleUsers_user d cu : role cu = user -> visibleUsers d cu = d.
Proof.
  intros H. unfold visibleUsers, usersQuery. rewrite H. simpl. apply find_all.
Qed.

(** C2. On the seed data the listing requested by [user1], whose role is
    [user], answers 200 with all eleven documents of the collection, the
    master admin included; the dashboard of the same actor is empty. *)
Theorem getUsers_user_lists_everything :
  role user1 = user
  /\ getUsers dummyUsers (_id user1)
     = json (map select_minus_password dummyUsers)
  /\ visibleUsers dummyUsers user1 = dummyUsers
  /\ length (visibleUsers dummyUsers user1) = 11
  /\ dashboardStats dummyUsers (_id user1) = json NoStats.
Proof. repeat split; reflexivity. Qed.

(** ** Fetching one document *)

Lemma getUserById_found d actor i u :
  findById i d = Some u ->
  getUserById d actor i = json (select_minus_password u).
Proof. intros H. unfold getUserById. rewrite H. reflexivity. Qed.

(** C4. On the seed data the admin fetches the master's document by id and
    is answered 200 with it, although [canManageRole admin master] is false
    and the listing hides that document from the admin; the same admin also
    fetches their own document. *)
Theorem getUserById_admin_reads_master :
  role admin1 = admin /\ role masteradmin = master
  /\ canManageRole (role admin1) (role masteradmin) = false
  /\ (masteradmin ∉ visibleUsers dummyUsers admin1)
  /\ getUserById dummyUsers (_id admin1) (_id masteradmin)
     = json (select_minus_password masteradmin)
  /\ getUserById dummyUsers (_id admin1) (_id admin1)
     = json (select_minus_password admin1).
Proof.
  repeat split; try reflexivity.
  rewrite visibleUsers_admin by reflexivity. rewrite elem_of_find.
  intros [H _]. vm_compute in H. discriminate.
Qed.

(** ** Deleting *)

(** C6. Whatever the collection and whoever the actor, a request to delete
    the actor's own document leaves the collection as it is and is answered
    404 when the actor has no document and 403 otherwise: the target's role
    is the actor's own, which no role manages, master included. *)
Theorem deleteUser_self_denied :
  (forall r, canManageRole r r = false)
  /\ forall (d : Directory) (i : Id),
       deleteUser d i i =
       (d, match findById i d with
           | None => fail 404 "User not found"
           | Some _ =>
               fail 403 "You don't have permission to delete this user"
           end).
Proof.
  split; [exact canManageRole_irrefl|].
  intros d i. unfold deleteUser.
  destruct (findById i d) as [cu|]; [|reflexivity].
  rewrite canManageRole_irrefl. reflexivity.
Qed.

(** ** The manager's two-hop view *)

Lemma find_ext_in q1 q2 d :
  (forall u, u ∈ d -> matches q1 u = matches q2 u) -> find q1 d = find q2 d.
Proof.
  unfold find. induction d as [|x d IH]; intros H; [reflexivity|].
  rewrite !filter_cons. rewrite (H x) by left.
  rewrite IH by (intros u Hu; apply H; right; exact Hu). reflexivity.
Qed.

Lemma elem_of_select_id i us :
  i ∈ select_id us <-> exists x, x ∈ us /\ _id x = i.
Proof.
  unfold select_id. rewrite list_elem_of_fmap. split.
  - intros (x & -> & Hx). eauto.
  - intros (x & Hx & <-). eauto.
Qed.

Lemma matches_QTlIdIn ids u :
  matches (QTlIdIn ids) u = true <-> exists t, tlId u = Some t /\ t ∈ ids.
Proof.
  simpl. destruct (tlId u) as [t|].
  - rewrite bool_decide_eq_true. split; [eauto|].
    intros (t' & [= <-] & H). exact H.
  - split; [discriminate|]. intros (t & H & _). discriminate.
Qed.

(** What the code returns to a manager: the direct reports, and the
    documents whose [tlId] is the id of a direct report of any role. *)
Lemma visibleUsers_manager_elem d cu u :
  role cu = manager ->
  u ∈ visibleUsers d cu <->
  u ∈ d /\ (managerId u = Some (_id cu)
            \/ exists x, x ∈ d /\ managerId x = Some (_id cu)
                         /\ tlId u = Some (_id x)).
Proof.
  intros Hr. rewrite visibleUsers_manager by exact Hr.
  rewrite elem_of_find. cbn [matches]. rewrite orb_true_iff.
  change (match tlId u with
          | Some t =>
              bool_decide
                (t ∈ select_id (find (QManagerId (_id cu)) d))
          | None => false
          end)
    with (matches (QTlIdIn (select_id (find (QManagerId (_id cu)) d))) u).
  rewrite matches_QTlIdIn, bool_decide_eq_true. split.
  - intros [[H | (t & Ht & Hin)] Hu]; split; auto.
    right. apply elem_of_select_id in Hin as (x & Hx & <-).
    apply elem_of_find in Hx as [Hm Hx]. simpl in Hm.
    apply bool_decide_eq_true in Hm. eauto.
  - intros [Hu [H | (x & Hx & Hm & Ht)]]; split; auto.
    right. exists (_id x). split; [exact Ht|].
    apply elem_of_select_id. exists x. split; [|reflexivity].
    apply elem_of_find. split; [|exact Hx]. simpl.
    apply bool_decide_eq_true. exact Hm.
Qed.

(** The code and the rule of the design agree on every collection in which
    the direct reports that are referenced as a team leader have the role
    [tl]. *)
Lemma visibleUsers_manager_refines d cu :
  role cu = manager ->
  (forall x u, x ∈ d -> u ∈ d -> managerId x = Some (_id cu) ->
               tlId u = Some (_id x) -> role x = tl) ->
  visibleUsers d cu = visibleUsers_manager_spec d cu.
Proof.
  intros Hr Hwf. rewrite visibleUsers_manager by exact Hr.
  unfold visibleUsers_manager_spec. apply find_ext_in. intros u Hu.
  cbn [matches]. f_equal. apply eq_true_iff_eq.
  change (matches (QTlIdIn (select_id (find (QManagerId (_id cu)) d))) u = true
          <-> matches (QTlIdIn (select_id
                (find (QAnd (QManagerId (_id cu)) (QRole tl)) d))) u = true).
  rewrite !matches_QTlIdIn. split.
  - intros (t & Ht & Hin). exists t. split; [exact Ht|].
    apply elem_of_select_id in Hin as (x & Hx & <-).
    apply elem_of_select_id. exists x. split; [|reflexivity].
    apply elem_of_find in Hx as [Hm Hx]. apply elem_of_find.
    split; [|exact Hx]. simpl in Hm. apply bool_decide_eq_true in Hm.
    simpl. rewrite andb_true_iff, !bool_decide_eq_true. split; [exact Hm|].
    exact (Hwf x u Hx Hu Hm Ht).
  - intros (t & Ht & Hin). exists t. split; [exact Ht|].
    apply elem_of_select_id in Hin as (x & Hx & <-).
    apply elem_of_select_id. exists x. split; [|reflexivity].
    apply elem_of_find in Hx as [Hm Hx]. apply elem_of_find.
    split; [|exact Hx]. simpl in Hm. apply andb_true_iff in Hm as [Hm _].
    exact Hm.
Qed.

(** The scenario of the design on the seed data: [manager1] owns [tl1] and
    [tl2], [tl1] owns [user1] and [user2], [tl2] owns [user3]. *)
Example visibleUsers_manager1 :
  visibleUsers dummyUsers manager1 = [tl1; tl2; user1; user2; user3].
Proof. reflexivity. Qed.

(** C3. After the two updates, both answered 200, the listing of
    [manager1] still contains [user3], which is no direct report and whose
    [tlId] names a document of role [user]: the code collects the ids of all
    direct reports where the rule of the design, and the manager's
    dashboard, collect those of role [tl] only. *)
Theorem visibleUsers_manager_misses_role_filter :
  let tl2' := applyUpdates (setRole user) tl2 in
  let user3' := applyUpdates (setManagerId (Some 4)) user3 in
  afterDemotion
  = [masteradmin; admin1; manager1; manager2; tl1; tl2'; tl3;
     user1; user2; user3'; user4]
  /\ visibleUsers afterDemotion manager1 = [tl1; tl2'; user1; user2; user3']
  /\ visibleUsers_manager_spec afterDemotion manager1
     = [tl1; tl2'; user1; user2]
  /\ dashboardStats afterDemotion (_id manager1) = json (ManagerStats 1 3).
Proof. repeat split; reflexivity. Qed.

(** ** Updating *)

Lemma findById_cons i x d :
  findById i (x :: d) = if decide (_id x = i) then Some x else findById i d.
Proof.
  unfold findById, findOne, find. destruct (decide (_id x = i)) as [e|n].
  - rewrite filter_cons_True; [reflexivity|].
    simpl. apply Is_true_true, bool_decide_eq_true. exact e.
  - rewrite filter_cons_False; [reflexivity|].
    simpl. rewrite Is_true_true, bool_decide_eq_true. exact n.
Qed.

Lemma findById_updateFirst i f d u :
  findById i d = Some u -> _id (f u) = i ->
  findById i (updateFirst i f d) = Some (f u).
Proof.
  induction d as [|x d IH]; intros H Hf; [discriminate|].
  rewrite findById_cons in H. simpl.
  destruct (decide (_id x = i)) as [e|n].
  - injection H as ->. rewrite findById_cons, Hf.
    rewrite decide_True by reflexivity. reflexivity.
  - rewrite findById_cons. rewrite decide_False by exact n. auto.
Qed.

Lemma length_updateFirst i f d : length (updateFirst i f d) = length d.
Proof.
  induction d as [|x d IH]; [reflexivity|]. simpl.
  destruct (decide (_id x = i)); simpl; congruence.
Qed.

(** What a self-update does: the two permission checks are skipped, and the
    write goes through unless the unique index on [email] refuses it. *)
Lemma updateUser_self d i b u :
  findById i d = Some u ->
  updateUser d i i b =
  if emailTaken i b d then (d, fail 500 "Internal server error")
  else (updateFirst i (applyUpdates b) d,
        json_msg 200 "User updated successfully"
          (Some (select_minus_password (applyUpdates b u)))).
Proof.
  intros H. unfold updateUser. rewrite H.
  destruct (findById_Some _ _ _ H) as [Hi _].
  rewrite (bool_decide_eq_false_2 (_id u <> i)) by (intros Hn; apply Hn, Hi).
  simpl. destruct (ub_role b) as [r|]; simpl.
  - rewrite andb_false_r. reflexivity.
  - reflexivity.
Qed.

(** C5. On the seed data [user1], of role [user], sends
    [{ role: "master" }] for their own id and is answered 200: the stored
    role becomes [master], which the role [user] cannot assign, so the
    property of the claim fails there. The role check that the handler
    skips for a self-update refuses the same body with 403 when the target
    is somebody else, here the admin on a team leader. *)
Theorem self_update_escalates_role :
  role user1 = user
  /\ canManageRole (role user1) master = false
  /\ code (snd (updateUser dummyUsers (_id user1) (_id user1)
                  (setRole master))) = 200
  /\ findById (_id user1)
       (fst (updateUser dummyUsers (_id user1) (_id user1) (setRole master)))
     = Some (applyUpdates (setRole master) user1)
  /\ role (applyUpdates (setRole master) user1) = master
  /\ ~ self_update_keeps_role_and_links dummyUsers (_id user1)
        (setRole master)
  /\ updateUser dummyUsers (_id admin1) (_id tl1) (setRole master)
     = (dummyUsers, fail 403 "You don't have permission to assign this role").
Proof.
  repeat split; try reflexivity.
  intros H.
  destruct (H user1 (applyUpdates (setRole master) user1)
              eq_refl eq_refl) as [[Hr | Hc] _].
  - discriminate Hr.
  - vm_compute in Hc. discriminate Hc.
Qed.

(** ** Where documents come from *)

Lemma length_deleteFirst i d : length (deleteFirst i d) <= length d.
Proof.
  induction d as [|x d IH]; [reflexivity|]. simpl.
  destruct (decide (_id x = i)); simpl; lia.
Qed.

Lemma length_updateUser d a t b : length (fst (updateUser d a t b)) = length d.
Proof.
  unfold updateUser.
  repeat (match goal with
          | |- context [match ?x with _ => _ end] => destruct x
          end; simpl; try reflexivity).
  apply length_updateFirst.
Qed.

Lemma length_deleteUser d a t : length (fst (deleteUser d a t)) <= length d.
Proof.
  unfold deleteUser.
  repeat (match goal with
          | |- context [match ?x with _ => _ end] => destruct x
          end; simpl; try reflexivity).
  apply length_deleteFirst.
Qed.

(** C7, counterexample. The sign-up route takes no authenticated actor: on
    the empty collection it inserts a document, and there is nobody who
    could have been its creator. *)
Lemma signUp_needs_no_creator :
  ~ inserted_by_privileged_creator []
      (fst (signUp asciiTrim asciiEmail (fun pw => "$2b$10$" ++ pw) 1 0 []
              {| su_firstName := Some "New"; su_lastName := Some "Comer";
                 su_email := Some "new@example.com";
                 su_password := Some "secret";
                 su_phoneNum := Some "0123456789" |})).
Proof.
  intros H. destruct (H _ eq_refl) as (creator & Hin & _). inversion Hin.
Qed.

(** C7, amended. A document inserted by POST /api/users has the role asked
    for in the body, and the role of the authenticated actor's document
    manages that role; a document inserted by POST /api/SignUp, which takes
    no authenticated actor, has the role [user] and no links; updates and
    deletions insert nothing. *)
Theorem insertions_by_route
    (trim email_setters bcrypt_hash : string -> string) (new_id : Id) (now : nat)
    (d : Directory) :
  (forall req_user_id body,
     let d' := fst (createUser trim email_setters bcrypt_hash new_id now d req_user_id body) in
     d' = d
     \/ exists currentUser newUser,
          findById req_user_id d = Some currentUser
          /\ d' = insertOne newUser d
          /\ cb_role body = Some (role newUser)
          /\ canManageRole (role currentUser) (role newUser) = true)
  /\ (forall body,
        let d' := fst (signUp trim email_setters bcrypt_hash new_id now d body) in
        d' = d
        \/ exists newUser,
             d' = insertOne newUser d
             /\ role newUser = user
             /\ managerId newUser = None /\ tlId newUser = None)
  /\ (forall a t body, length (fst (updateUser d a t body)) = length d)
  /\ (forall a t, length (fst (deleteUser d a t)) <= length d).
Proof.
  split; [|split; [|split]].
  - intros i body. unfold createUser.
    destruct (findById i d) as [cu|]; [|left; reflexivity].
    destruct (cb_role body) as [r|]; [|left; reflexivity].
    destruct (canManageRole (role cu) r) eqn:Hc; [|left; reflexivity].
    simpl negb. cbv iota.
    repeat (match goal with
            | |- context [if ?x then _ else _] => destruct x
            | |- context [match ?x with Some _ => _ | None => _ end] =>
                destruct x
            end; try (left; reflexivity)).
    right. eexists cu, _. simpl. repeat split. exact Hc.
  - intros body. unfold signUp.
    repeat (match goal with
            | |- context [if ?x then _ else _] => destruct x
            | |- context [match ?x with Some _ => _ | None => _ end] =>
                destruct x
            end; try (left; reflexivity)).
    right. eexists. simpl. repeat split.
  - intros a t body. apply length_updateUser.
  - intros a t. apply length_deleteUser.
Qed.

(** Both routes do insert: an admin creates a manager, and anybody signs
    up. *)
Example createUser_admin_creates_manager :
  let body :=
    {| cb_firstName := Some "Manager"; cb_lastName := Some "Three";
       cb_email := Some "manager3@example.com"; cb_password := Some "password";
       cb_phoneNum := Some "1313131313"; cb_role := Some manager;
       cb_department := None; cb_position := None;
       cb_tlId := None; cb_managerId := Some 2 |} in
  let out := createUser asciiTrim asciiEmail (fun pw => "$2b$10$" ++ pw) 12 0 dummyUsers 2 body in
  code (snd out) = 201
  /\ fst out = insertOne (with_password "$2b$10$password"
                            (doc 12 "Manager" "Three" "manager3@example.com"
                               "1313131313" manager (Some 2) None))
                         dummyUsers.
Proof. split; reflexivity. Qed.

(** ** Deleting and dependents *)

Lemma hasSubordinates_iff d t :
  is_Some (hasSubordinates d t) <->
  exists u, u ∈ d /\ (managerId u = Some t \/ tlId u = Some t).
Proof.
  unfold hasSubordinates. split.
  - intros [u Hu]. apply findOne_Some in Hu as [Hm Hu]. exists u.
    split; [exact Hu|]. simpl in Hm. apply orb_true_iff in Hm.
    rewrite !bool_decide_eq_true in Hm. tauto.
  - intros (u & Hu & Hl).
    destruct (findOne (QOr (QTlId t) (QManagerId t)) d) eqn:E; [eauto|].
    rewrite findOne_None in E. specialize (E u Hu). simpl in E.
    apply orb_false_iff in E as [E1 E2].
    apply bool_decide_eq_false in E1, E2. tauto.
Qed.

Lemma elem_of_deleteFirst t d u :
  NoDup (map _id d) -> u ∈ deleteFirst t d <-> u ∈ d /\ _id u <> t.
Proof.
  induction d as [|x d IH]; intros Hnd; simpl.
  - split; [intros H; inversion H | intros [H _]; inversion H].
  - apply NoDup_cons in Hnd as [Hx Hnd]. rewrite elem_of_cons.
    destruct (decide (_id x = t)) as [e|n].
    + split.
      * intros Hu. split; [right; exact Hu|]. intros Ht. apply Hx.
        rewrite e, <- Ht. apply list_elem_of_fmap. eauto.
      * intros [[-> | Hu] Ht]; [contradiction | exact Hu].
    + rewrite elem_of_cons, (IH Hnd). split.
      * intros [-> | [Hu Ht]]; auto.
      * intros [[-> | Hu] Ht]; auto.
Qed.

(** C8. The dependents check asks the whole collection: it finds a document
    exactly when some document names the target as its manager or its team
    leader. Once the actor's role manages the target's, the deletion of a
    target without dependents is answered 200 and takes the target's
    document, and no other, out of the collection; the deletion of a target
    with a dependent is answered 400 with the message on subordinates and
    leaves the collection as it is. *)
Theorem deleteUser_dependents :
  (forall (d : Directory) (t : Id),
     is_Some (hasSubordinates d t) <->
     exists u, u ∈ d /\ (managerId u = Some t \/ tlId u = Some t))
  /\ (forall (d : Directory) (a t : Id) (cu tu : User),
        findById a d = Some cu ->
        findById t d = Some tu ->
        canManageRole (role cu) (role tu) = true ->
        (hasSubordinates d t = None ->
         deleteUser d a t
         = (deleteFirst t d, json_msg 200 "User deleted successfully" None)
         /\ (NoDup (map _id d) ->
             (tu ∉ deleteFirst t d)
             /\ forall u, u ∈ deleteFirst t d <-> u ∈ d /\ _id u <> t))
        /\ (is_Some (hasSubordinates d t) ->
            deleteUser d a t
            = (d, fail 400
                 "Cannot delete user with subordinates. Reassign subordinates first."))).
Proof.
  split; [exact hasSubordinates_iff|].
  intros d a t cu tu Ha Ht Hc. unfold deleteUser. rewrite Ha, Ht, Hc. simpl.
  split.
  - intros Hn. rewrite Hn. split; [reflexivity|]. intros Hnd. split.
    + rewrite (elem_of_deleteFirst t d tu Hnd). intros [_ Hne].
      apply Hne. apply (findById_Some _ _ _ Ht).
    + intros u. apply elem_of_deleteFirst. exact Hnd.
  - intros [s Hs]. rewrite Hs. reflexivity.
Qed.

Lemma deleteUser_dependents_witness :
  deleteUser dummyUsers 1 11
  = ([masteradmin; admin1; manager1; manager2; tl1; tl2; tl3;
      user1; user2; user3],
     json_msg 200 "User deleted successfully" None)
  /\ deleteUser dummyUsers 1 7
     = (dummyUsers,
        fail 400
          "Cannot delete user with subordinates. Reassign subordinates first.").
Proof.
  destruct deleteUser_dependents as [_ H]. split.
  - destruct (H dummyUsers 1 11 masteradmin user4 eq_refl eq_refl eq_refl)
      as [H0 _].
    destruct (H0 eq_refl) as [Hd _]. exact Hd.
  - destruct (H dummyUsers 1 7 masteradmin tl3 eq_refl eq_refl eq_refl)
      as [_ H1].
    apply H1. exists user4. reflexivity.
Defined.

(** ** The size of the view along the ladder *)

Lemma find_length_mono q1 q2 d :
  (forall u, u ∈ d -> matches q1 u = true -> matches q2 u = true) ->
  length (find q1 d) <= length (find q2 d).
Proof.
  unfold find. induction d as [|x d IH]; intros H; [reflexivity|].
  assert (IH' := IH (fun u Hu => H u (list_elem_of_further _ _ _ Hu))).
  assert (Hx := H x (list_elem_of_here _ _)).
  rewrite !filter_cons.
  destruct (matches q1 x) eqn:E1; destruct (matches q2 x) eqn:E2; simpl.
  - lia.
  - specialize (Hx eq_refl). discriminate.
  - lia.
  - exact IH'.
Qed.

(** C9, counterexample. The view follows the ownership links, not the rank
    alone: the new manager sees nobody while the team leader [tl1], who
    reports to another manager, sees two users. *)
Lemma scope_not_monotone :
  role masteradmin = master /\ role admin1 = admin /\ role manager3 = manager
  /\ role tl1 = tl /\ role user1 = user
  /\ length (visibleUsers withManager3 manager3) = 0
  /\ length (visibleUsers withManager3 tl1) = 2
  /\ ~ scope_chain withManager3 masteradmin admin1 manager3 tl1 user1.
Proof.
  repeat split; try reflexivity.
  intros (_ & _ & H & _). vm_compute in H. lia.
Qed.

(** C9, amended. In a fixed collection the master's view is at least as
    large as the view of any actor, the admin included; the admin's view is
    at least as large as a manager's when every document that carries a
    link has one of the roles manager, tl and user; a manager's view is at
    least as large as the view of a team leader who is in the collection
    and reports to that manager. *)
Theorem visibleUsers_scope (d : Directory) :
  (forall ma x,
     role ma = master ->
     length (visibleUsers d x) <= length (visibleUsers d ma))
  /\ (forall a m,
        role a = admin -> role m = manager ->
        (forall u, u ∈ d -> managerId u <> None \/ tlId u <> None ->
                   role u ∈ [manager; tl; user]) ->
        length (visibleUsers d m) <= length (visibleUsers d a))
  /\ (forall m t,
        role m = manager -> role t = tl ->
        t ∈ d -> managerId t = Some (_id m) ->
        length (visibleUsers d t) <= length (visibleUsers d m)).
Proof.
  split; [|split].
  - intros ma x Hma. rewrite (visibleUsers_master d ma Hma).
    apply find_length_le.
  - intros a m Ha Hm Hlinks.
    rewrite (visibleUsers_admin d a Ha), (visibleUsers_manager d m Hm).
    apply find_length_mono. intros u Hu Hq.
    simpl. apply bool_decide_eq_true. apply Hlinks; [exact Hu|].
    cbn [matches] in Hq. apply orb_true_iff in Hq as [Hq | Hq].
    + apply bool_decide_eq_true in Hq. left. congruence.
    + right. destruct (tlId u); [discriminate | discriminate Hq].
  - intros m t Hm Ht Hin Hmgr.
    rewrite (visibleUsers_tl d t Ht), (visibleUsers_manager d m Hm).
    apply find_length_mono. intros u Hu Hq.
    simpl in Hq. apply bool_decide_eq_true in Hq.
    cbn [matches]. apply orb_true_iff. right. rewrite Hq.
    apply bool_decide_eq_true, elem_of_select_id. exists t.
    split; [|reflexivity]. apply elem_of_find. split; [|exact Hin].
    simpl. apply bool_decide_eq_true. exact Hmgr.
Qed.

Lemma visibleUsers_scope_witness :
  length (visibleUsers dummyUsers admin1)
  <= length (visibleUsers dummyUsers masteradmin)
  /\ length (visibleUsers dummyUsers manager1)
     <= length (visibleUsers dummyUsers admin1)
  /\ length (visibleUsers dummyUsers tl1)
     <= length (visibleUsers dummyUsers manager1).
Proof.
  destruct (visibleUsers_scope dummyUsers) as (H1 & H2 & H3).
  split; [|split].
  - apply H1. reflexivity.
  - apply H2; [reflexivity | reflexivity |].
    intros u Hu Hl. unfold dummyUsers in Hu.
    repeat (apply elem_of_cons in Hu as [-> | Hu];
            [first [ vm_compute; repeat constructor; fail
                   | destruct Hl as [H | H]; exfalso; apply H; reflexivity ] |]).
    inversion Hu.
  - apply H3; try reflexivity. unfold dummyUsers. repeat constructor.
Defined.

(** ** The password never leaves the server *)

Section Passwords.

Variables d1 d2 : Directory.
Hypothesis Hd : differ_only_in_passwords d1 d2.

Lemma matches_password q u v :
  same_but_password u v -> matches q u = matches q v.
Proof.
  intros ->. induction q; simpl; try reflexivity.
  - rewrite IHq1, IHq2. reflexivity.
  - rewrite IHq1, IHq2. reflexivity.
Qed.

Lemma select_password u v :
  same_but_password u v ->
  select_minus_password u = select_minus_password v.
Proof. intros ->. reflexivity. Qed.

Lemma find_password q l1 l2 :
  Forall2 same_but_password l1 l2 ->
  Forall2 same_but_password (find q l1) (find q l2).
Proof.
  unfold find. induction 1 as [|u v l1 l2 Huv Hl IH]; [constructor|].
  rewrite !filter_cons, <- (matches_password q u v Huv).
  destruct (matches q u); simpl; [constructor|]; assumption.
Qed.

Lemma map_select_password l1 l2 :
  Forall2 same_but_password l1 l2 ->
  map select_minus_password l1 = map select_minus_password l2.
Proof.
  induction 1 as [|u v l1 l2 Huv Hl IH]; [reflexivity|].
  simpl. rewrite (select_password u v Huv), IH. reflexivity.
Qed.

Lemma select_id_password l1 l2 :
  Forall2 same_but_password l1 l2 -> select_id l1 = select_id l2.
Proof.
  induction 1 as [|u v l1 l2 Huv Hl IH]; [reflexivity|].
  simpl. rewrite IH, Huv. reflexivity.
Qed.

Lemma findOne_password q :
  option_Forall2 same_but_password (findOne q d1) (findOne q d2).
Proof.
  unfold findOne. destruct (find_password q d1 d2 Hd); constructor.
  assumption.
Qed.

Lemma usersQuery_password u v :
  same_but_password u v -> usersQuery d1 u = usersQuery d2 v.
Proof.
  intros Huv. unfold usersQuery.
  rewrite (select_id_password _ _ (find_password (QManagerId (_id u)) _ _ Hd)).
  rewrite Huv. reflexivity.
Qed.

Lemma applyUpdates_password b u v :
  same_but_password u v ->
  same_but_password (applyUpdates b u) (applyUpdates b v).
Proof. intros ->. reflexivity. Qed.

Lemma updateFirst_password i b l1 l2 :
  Forall2 same_but_password l1 l2 ->
  Forall2 same_but_password (updateFirst i (applyUpdates b) l1)
                            (updateFirst i (applyUpdates b) l2).
Proof.
  induction 1 as [|u v l1 l2 Huv Hl IH]; [constructor|].
  simpl. replace (_id v) with (_id u) by (rewrite Huv; reflexivity).
  destruct (decide (_id u = i)); constructor; auto.
  apply applyUpdates_password. exact Huv.
Qed.

Lemma Exists_email_password i e l1 l2 :
  Forall2 same_but_password l1 l2 ->
  Exists (fun u => _id u <> i /\ email u = e) l1
  <-> Exists (fun u => _id u <> i /\ email u = e) l2.
Proof.
  induction 1 as [|u v l1 l2 Huv Hl IH]; [rewrite !Exists_nil; tauto|].
  rewrite !Exists_cons, IH. rewrite Huv. simpl. tauto.
Qed.

Lemma emailTaken_password i b : emailTaken i b d1 = emailTaken i b d2.
Proof.
  unfold emailTaken. destruct (ub_email b) as [e|]; [|reflexivity].
  apply bool_decide_ext, Exists_email_password. exact Hd.
Qed.

(** C10. Take two collections that differ only in the passwords of their
    documents. The current-user fetch, the listing and the single-user
    fetch answer the same on both, and so does an update, which moreover
    leaves two collections that again differ only in passwords. *)
Theorem responses_hide_password (a t : Id) (b : UpdateBody) :
  getMe d1 a = getMe d2 a
  /\ getUsers d1 a = getUsers d2 a
  /\ getUserById d1 a t = getUserById d2 a t
  /\ snd (updateUser d1 a t b) = snd (updateUser d2 a t b)
  /\ differ_only_in_passwords (fst (updateUser d1 a t b))
                              (fst (updateUser d2 a t b)).
Proof.
  assert (Ha := findOne_password (QId a)).
  assert (Ht := findOne_password (QId t)).
  fold (findById a d1) (findById a d2) in Ha.
  fold (findById t d1) (findById t d2) in Ht.
  repeat split.
  - unfold getMe. destruct Ha as [u v Huv|]; [|reflexivity].
    rewrite (select_password u v Huv). reflexivity.
  - unfold getUsers, visibleUsers. destruct Ha as [u v Huv|]; [|reflexivity].
    rewrite (usersQuery_password u v Huv).
    rewrite (map_select_password _ _ (find_password _ _ _ Hd)).
    reflexivity.
  - unfold getUserById. destruct Ht as [u v Huv|]; [|reflexivity].
    rewrite (select_password u v Huv). reflexivity.
  - unfold updateUser. destruct Ha as [u v Huv|]; [|reflexivity].
    destruct Ht as [x y Hxy|]; [|reflexivity].
    rewrite <- (emailTaken_password t b).
    rewrite <- (select_password _ _ (applyUpdates_password b x y Hxy)).
    rewrite Huv, Hxy. simpl.
    repeat (match goal with
            | |- context [if ?c then _ else _] => destruct c
            | |- context [match ?c with Some _ => _ | None => _ end] =>
                destruct c
            end; simpl; try reflexivity).
  - unfold updateUser. destruct Ha as [u v Huv|]; [|exact Hd].
    destruct Ht as [x y Hxy|]; [|exact Hd].
    rewrite <- (emailTaken_password t b).
    rewrite Huv, Hxy. simpl.
    repeat (match goal with
            | |- context [if ?c then _ else _] => destruct c
            | |- context [match ?c with Some _ => _ | None => _ end] =>
                destruct c
            end; simpl; try exact Hd).
    all: apply updateFirst_password; exact Hd.
Qed.

End Passwords.

Lemma responses_hide_password_witness :
  let d2 := map (with_password "$2b$10$other") dummyUsers in
  getMe dummyUsers 1 = getMe d2 1
  /\ getUsers dummyUsers 1 = getUsers d2 1
  /\ getUserById dummyUsers 1 6 = getUserById d2 1 6
  /\ snd (updateUser dummyUsers 1 6 (setRole user))
     = snd (updateUser d2 1 6 (setRole user))
  /\ differ_only_in_passwords
       (fst (updateUser dummyUsers 1 6 (setRole user)))
       (fst (updateUser d2 1 6 (setRole user))).
Proof.
  apply (responses_hide_password
           dummyUsers (map (with_password "$2b$10$other") dummyUsers)).
  unfold differ_only_in_passwords, dummyUsers. simpl.
  repeat constructor.
Defined.

(** * Further properties of the router and of the client helpers *)

(** ** The ladder as an order *)

(** X1. The server's [canManageRole] is a strict total order on the five
    roles: it is transitive, and of two different roles exactly one manages
    the other. *)
Theorem canManageRole_strict_order :
  (forall a b c,
     canManageRole a b = true -> canManageRole b c = true ->
     canManageRole a c = true)
  /\ (forall a b, a <> b -> canManageRole a b = negb (canManageRole b a)).
Proof.
  split.
  - intros a b c. rewrite !canManageRole_rank. lia.
  - intros [] [] H; try reflexivity; contradiction H; reflexivity.
Qed.

(** X2. The roles the user form offers to a logged-in actor are the roles
    the server lets that actor create, and in addition the role [master]
    when the actor is a master, which the server refuses; nothing is offered
    before login. *)
Theorem availableRoles_server :
  availableRoles None = []
  /\ forall a r,
       r ∈ availableRoles (Some a)
       <-> canManageRole a r = true \/ (a = master /\ r = master).
Proof.
  split; [reflexivity|]. intros a r. unfold availableRoles.
  rewrite list_elem_of_filter, Is_true_true, AuthContext_canManageRole_rank.
  rewrite canManageRole_rank. split.
  - intros [[-> | H] _]; [|left; exact H].
    destruct r; [right; split; reflexivity | left; simpl; lia ..].
  - intros H. split.
    + destruct H as [H | [-> _]]; [right; exact H | left; reflexivity].
    + destruct r; repeat constructor.
Qed.

(** ** Signing up and logging in *)

Lemma find_app q d1 d2 : find q (d1 ++ d2)%list = (find q d1 ++ find q d2)%list.
Proof. unfold find. apply filter_app. Qed.

Lemma findOne_insertOne_new q d u :
  findOne q d = None -> matches q u = true -> findOne q (insertOne u d) = Some u.
Proof.
  unfold findOne, insertOne. intros Hn Hm. rewrite find_app.
  destruct (find q d); [|discriminate]. unfold find.
  rewrite filter_cons_True by (apply Is_true_true; exact Hm). reflexivity.
Qed.

Lemma findOne_insertOne_old q d u x :
  findOne q d = Some x -> findOne q (insertOne u d) = Some x.
Proof.
  unfold findOne, insertOne. intros H. rewrite find_app.
  destruct (find q d); [discriminate|]. exact H.
Qed.

Lemma findOne_insertOne_other q d u :
  matches q u = false -> findOne q (insertOne u d) = findOne q d.
Proof.
  unfold findOne, insertOne. intros Hm. rewrite find_app. unfold find at 2.
  rewrite filter_cons_False, filter_nil, app_nil_r; [reflexivity|].
  rewrite Is_true_true, Hm. discriminate.
Qed.

Lemma falsy_Some_false s : falsy (Some s) = false <-> s <> "".
Proof. simpl. apply bool_decide_eq_false. Qed.

(** What a sign-up does, by the five fields of the body. *)
Lemma signUp_unfold trim email_setters bcrypt_hash new_id now d fn ln em pw ph :
  signUp trim email_setters bcrypt_hash new_id now d
    {| su_firstName := Some fn; su_lastName := Some ln; su_email := Some em;
       su_password := Some pw; su_phoneNum := Some ph |}
  = if falsy (Some fn) || falsy (Some ln) || falsy (Some em)
       || falsy (Some pw) || falsy (Some ph)
    then (d, fail 400 "All fields are required")
    else match findOne (QEmail (email_setters em)) d with
         | Some _ => (d, fail 400 "Email already exists")
         | None =>
             if negb (negb (falsy (Some (trim fn)))
                      && negb (falsy (Some (trim ln)))
                      && negb (falsy (Some (email_setters em)))
                      && negb (falsy (Some (bcrypt_hash pw)))
                      && negb (falsy (Some ph)))
             then (d, fail 500 "Internal server error")
             else
               (insertOne
                  {| _id := new_id; firstName := trim fn; lastName := trim ln;
                     email := email_setters em; password := bcrypt_hash pw;
                     phoneNum := ph;
                     role := user; tlId := None; managerId := None;
                     status := active; department := None; position := None;
                     createdAt := now; updatedAt := now |} d,
                json_msg 201 "User signed up successfully"
                  (Some {| sv_firstName := trim fn; sv_lastName := trim ln;
                           sv_email := email_setters em |}))
         end.
Proof. reflexivity. Qed.

(** The shape of a sign-up answered 201. *)
Lemma signUp_201 trim email_setters bcrypt_hash new_id now d body :
  code (snd (signUp trim email_setters bcrypt_hash new_id now d body)) = 201 ->
  exists fn ln em pw ph,
    body = {| su_firstName := Some fn; su_lastName := Some ln;
              su_email := Some em; su_password := Some pw;
              su_phoneNum := Some ph |}
    /\ falsy (Some fn) = false /\ falsy (Some ln) = false
    /\ falsy (Some em) = false /\ falsy (Some pw) = false
    /\ falsy (Some ph) = false
    /\ findOne (QEmail (email_setters em)) d = None
    /\ falsy (Some (trim fn)) = false /\ falsy (Some (trim ln)) = false
    /\ falsy (Some (email_setters em)) = false
    /\ falsy (Some (bcrypt_hash pw)) = false
    /\ signUp trim email_setters bcrypt_hash new_id now d body
       = (insertOne
            {| _id := new_id; firstName := trim fn; lastName := trim ln;
               email := email_setters em; password := bcrypt_hash pw;
               phoneNum := ph;
               role := user; tlId := None; managerId := None;
               status := active; department := None; position := None;
               createdAt := now; updatedAt := now |} d,
          json_msg 201 "User signed up successfully"
            (Some {| sv_firstName := trim fn; sv_lastName := trim ln;
                     sv_email := email_setters em |})).
Proof.
  destruct body as [[fn|] [ln|] [em|] [pw|] [ph|]]; try discriminate.
  rewrite signUp_unfold.
  destruct (falsy (Some fn)) eqn:E1; [discriminate|].
  destruct (falsy (Some ln)) eqn:E2; [discriminate|].
  destruct (falsy (Some em)) eqn:E3; [discriminate|].
  destruct (falsy (Some pw)) eqn:E4; [discriminate|].
  destruct (falsy (Some ph)) eqn:E5; [discriminate|]. cbn [orb].
  destruct (findOne (QEmail (email_setters em)) d) eqn:Ef; [discriminate|].
  destruct (falsy (Some (trim fn))) eqn:V1; [discriminate|].
  destruct (falsy (Some (trim ln))) eqn:V2; [discriminate|].
  destruct (falsy (Some (email_setters em))) eqn:V3; [discriminate|].
  destruct (falsy (Some (bcrypt_hash pw))) eqn:V4; [discriminate|].
  cbn [negb andb]. intros _. exists fn, ln, em, pw, ph.
  repeat split; try reflexivity; try assumption.
Qed.

Lemma signUp_not_201 trim email_setters bcrypt_hash new_id now d body :
  code (snd (signUp trim email_setters bcrypt_hash new_id now d body)) <> 201 ->
  fst (signUp trim email_setters bcrypt_hash new_id now d body) = d
  /\ (code (snd (signUp trim email_setters bcrypt_hash new_id now d body)) = 400
      \/ code (snd (signUp trim email_setters bcrypt_hash new_id now d body))
         = 500).
Proof.
  unfold signUp.
  repeat (match goal with
          | |- context [if ?x then _ else _] => destruct x
          | |- context [match ?x with Some _ => _ | None => _ end] =>
              destruct x
          end; try (intros _; split; [reflexivity | auto])).
  intros H. contradiction H. reflexivity.
Qed.

(** X3. A sign-up is answered 201 exactly when the five fields of the body
    are present and non-empty, no document holds the email as the setters
    of the schema store it, and the first name, the last name, the email
    and the password hash are non-empty after the setters; every other
    sign-up is answered 400 or 500 and leaves the collection as it is. *)
Theorem signUp_outcome
    (trim email_setters bcrypt_hash : string -> string) (new_id : Id) (now : nat)
    (d : Directory) (body : SignUpBody) :
  let out := signUp trim email_setters bcrypt_hash new_id now d body in
  (code (snd out) = 201
   <-> falsy (su_firstName body) = false /\ falsy (su_lastName body) = false
       /\ falsy (su_email body) = false /\ falsy (su_password body) = false
       /\ falsy (su_phoneNum body) = false
       /\ findByEmail email_setters (su_email body) d = None
       /\ falsy (trim <$> su_firstName body) = false
       /\ falsy (trim <$> su_lastName body) = false
       /\ falsy (email_setters <$> su_email body) = false
       /\ falsy (bcrypt_hash <$> su_password body) = false)
  /\ (code (snd out) <> 201 ->
      fst out = d /\ (code (snd out) = 400 \/ code (snd out) = 500)).
Proof.
  cbv zeta. split; [|apply signUp_not_201]. split.
  - intros H. apply signUp_201 in H
      as (fn & ln & em & pw & ph & -> & E1 & E2 & E3 & E4 & E5 & Ef
          & V1 & V2 & V3 & V4 & _).
    cbn [su_firstName su_lastName su_email su_password su_phoneNum
         findByEmail fmap option_fmap option_map].
    repeat split; assumption.
  - destruct body as [[fn|] [ln|] [em|] [pw|] [ph|]];
      cbn [su_firstName su_lastName su_email su_password su_phoneNum
           findByEmail fmap option_fmap option_map];
      intros (E1 & E2 & E3 & E4 & E5 & Ef & V1 & V2 & V3 & V4);
      try discriminate.
    rewrite signUp_unfold, E1, E2, E3, E4, E5, Ef, V1, V2, V3, V4.
    reflexivity.
Qed.

(** X4. Sign-up and login fit together, given that [bcrypt.compare] accepts
    a password against its own hash: after a sign-up answered 201, a login
    with the same email and password is answered 200 with the new document,
    which has the role [user] and holds the email as the setters store it; a
    login with a password that [bcrypt.compare] rejects is answered 401; a
    second sign-up with the same body is answered 400 and inserts
    nothing. *)
Theorem signUp_then_login
    (trim email_setters bcrypt_hash : string -> string)
    (bcrypt_compare : string -> string -> bool)
    (new_id new_id' : Id) (now now' : nat) (d : Directory)
    (body : SignUpBody) (em pw : string) :
  (forall p, bcrypt_compare p (bcrypt_hash p) = true) ->
  su_email body = Some em -> su_password body = Some pw ->
  code (snd (signUp trim email_setters bcrypt_hash new_id now d body)) = 201 ->
  let d' := fst (signUp trim email_setters bcrypt_hash new_id now d body) in
  (exists u,
     login email_setters bcrypt_compare d'
       {| lb_email := Some em; lb_password := Some pw |}
     = json_msg 200 "Login successful" (Some (loginView u))
     /\ u ∈ d' /\ _id u = new_id /\ email u = email_setters em
     /\ role u = user)
  /\ (forall pw',
        bcrypt_compare pw' (bcrypt_hash pw) = false ->
        login email_setters bcrypt_compare d'
          {| lb_email := Some em; lb_password := Some pw' |}
        = fail 401 "Invalid password")
  /\ signUp trim email_setters bcrypt_hash new_id' now' d' body
     = (d', fail 400 "Email already exists").
Proof.
  intros Hcmp Hem Hpw Hok. apply signUp_201 in Hok
    as (fn & ln & em0 & pw0 & ph & -> & E1 & E2 & E3 & E4 & E5 & Ef
        & V1 & V2 & V3 & V4 & E).
  simpl in Hem, Hpw. injection Hem as ->. injection Hpw as ->.
  cbv zeta. rewrite E. cbn [fst].
  set (nu := {| _id := new_id; firstName := trim fn; lastName := trim ln;
                email := email_setters em; password := bcrypt_hash pw;
                phoneNum := ph; role := user;
                tlId := None; managerId := None; status := active;
                department := None; position := None;
                createdAt := now; updatedAt := now |}).
  assert (Hf : findOne (QEmail (email_setters em)) (insertOne nu d) = Some nu).
  { apply findOne_insertOne_new; [exact Ef|].
    simpl. apply bool_decide_eq_true. reflexivity. }
  split; [|split].
  - exists nu. unfold login. cbn [findByEmail lb_email lb_password].
    rewrite Hf. cbn [password nu]. rewrite Hcmp. simpl.
    repeat split. unfold insertOne. apply elem_of_app. right. left.
  - intros pw' Hrej. unfold login. cbn [findByEmail lb_email lb_password].
    rewrite Hf. cbn [password nu]. rewrite Hrej. reflexivity.
  - rewrite signUp_unfold, E1, E2, E3, E4, E5, Hf. reflexivity.
Qed.

Lemma signUp_then_login_witness :
  let hash := fun p => "$2b$10$" ++ p in
  let compare := fun p h => bool_decide (h = "$2b$10$" ++ p) in
  let body :=
    {| su_firstName := Some " New"; su_lastName := Some "Comer";
       su_email := Some "New@Example.com "; su_password := Some "secret";
       su_phoneNum := Some "0123456789" |} in
  let d' := fst (signUp asciiTrim asciiEmail hash 12 0 dummyUsers body) in
  (exists u,
     login asciiEmail compare d'
       {| lb_email := Some "New@Example.com "; lb_password := Some "secret" |}
     = json_msg 200 "Login successful" (Some (loginView u))
     /\ u ∈ d' /\ _id u = 12 /\ email u = asciiEmail "New@Example.com "
     /\ role u = user)
  /\ (forall pw',
        compare pw' (hash "secret") = false ->
        login asciiEmail compare d'
          {| lb_email := Some "New@Example.com "; lb_password := Some pw' |}
        = fail 401 "Invalid password")
  /\ signUp asciiTrim asciiEmail hash 13 1 d' body
     = (d', fail 400 "Email already exists").
Proof.
  intros hash compare body d'.
  apply (signUp_then_login asciiTrim asciiEmail hash compare 12 13 0 1
           dummyUsers body "New@Example.com " "secret").
  - intros p. apply bool_decide_eq_true. reflexivity.
  - reflexivity.
  - reflexivity.
  - reflexivity.
Defined.

(** The setters at work on the seed data: a blank first name is refused
    by the validators, and an email that differs from a stored one by case
    and blanks only is taken. *)
Example signUp_setters :
  let hash := fun p => "$2b$10$" ++ p in
  asciiEmail " USER1@Example.com " = "user1@example.com"
  /\ signUp asciiTrim asciiEmail hash 12 0 dummyUsers
       {| su_firstName := Some "  "; su_lastName := Some "Comer";
          su_email := Some "new@example.com"; su_password := Some "secret";
          su_phoneNum := Some "0123456789" |}
     = (dummyUsers, fail 500 "Internal server error")
  /\ signUp asciiTrim asciiEmail hash 12 0 dummyUsers
       {| su_firstName := Some "New"; su_lastName := Some "Comer";
          su_email := Some " USER1@Example.com ";
          su_password := Some "secret";
          su_phoneNum := Some "0123456789" |}
     = (dummyUsers, fail 400 "Email already exists").
Proof. repeat split; reflexivity. Qed.

(** ** Creating users *)

(** The validators at work: a first name of blanks is empty once trimmed,
    and the creation ends in the [catch] branch without inserting. *)
Example createUser_blank_name :
  createUser asciiTrim asciiEmail (fun pw => "$2b$10$" ++ pw) 12 0
    dummyUsers 2
    {| cb_firstName := Some "   "; cb_lastName := Some "Three";
       cb_email := Some "manager3@example.com"; cb_password := Some "password";
       cb_phoneNum := Some "1313131313"; cb_role := Some manager;
       cb_department := None; cb_position := None;
       cb_tlId := None; cb_managerId := Some 2 |}
  = (dummyUsers, fail 500 "Internal server error").
Proof. reflexivity. Qed.

(** The shape of a creation answered 201. *)
Lemma createUser_201 trim email_setters bcrypt_hash new_id now d a body :
  code (snd (createUser trim email_setters bcrypt_hash new_id now d a body))
  = 201 ->
  exists cu r fn ln em pw ph,
    findById a d = Some cu /\ cb_role body = Some r
    /\ canManageRole (role cu) r = true
    /\ (r = user -> cb_tlId body <> None)
    /\ (r = user \/ r = tl -> cb_managerId body <> None)
    /\ cb_email body = Some em
    /\ findOne (QEmail (email_setters em)) d = None
    /\ createUser trim email_setters bcrypt_hash new_id now d a body
       = (insertOne
            {| _id := new_id; firstName := trim fn; lastName := trim ln;
               email := email_setters em;
               password := bcrypt_hash pw; phoneNum := ph; role := r;
               tlId := cb_tlId body; managerId := cb_managerId body;
               status := active; department := trim <$> cb_department body;
               position := trim <$> cb_position body;
               createdAt := now; updatedAt := now |} d,
          json_msg 201 "User created successfully"
            (Some {| cv_id := new_id; cv_firstName := trim fn;
                     cv_lastName := trim ln;
                     cv_email := email_setters em; cv_role := r;
                     cv_department := trim <$> cb_department body;
                     cv_position := trim <$> cb_position body |})).
Proof.
  unfold createUser.
  destruct (findById a d) as [cu|]; [|discriminate].
  destruct (cb_role body) as [r|]; [|discriminate].
  destruct (canManageRole (role cu) r) eqn:Hc; [|discriminate]. cbn [negb].
  destruct (bool_decide (r = user) && bool_decide (cb_tlId body = None))
    eqn:Ht; [discriminate|].
  destruct ((bool_decide (r = user) || bool_decide (r = tl))
            && bool_decide (cb_managerId body = None)) eqn:Hm; [discriminate|].
  destruct (findByEmail email_setters (cb_email body) d) eqn:He;
    [discriminate|].
  destruct (cb_firstName body) as [fn|]; [|discriminate].
  destruct (cb_lastName body) as [ln|]; [|discriminate].
  destruct (cb_email body) as [em|] eqn:Hem; [|discriminate].
  destruct (cb_password body) as [pw|]; [|discriminate].
  destruct (cb_phoneNum body) as [ph|]; [|discriminate].
  destruct (negb (requiredOk _)); [discriminate|].
  intros _. exists cu, r, fn, ln, em, pw, ph.
  apply andb_false_iff in Ht. apply andb_false_iff in Hm.
  repeat split; try reflexivity; try assumption.
  - intros Hr. destruct Ht as [Ht | Ht]; apply bool_decide_eq_false in Ht;
      [contradiction | exact Ht].
  - intros Hr. destruct Hm as [Hm | Hm].
    + apply orb_false_iff in Hm as [H1 H2].
      apply bool_decide_eq_false in H1, H2. destruct Hr; contradiction.
    + apply bool_decide_eq_false in Hm. exact Hm.
Qed.

(** X5. A document inserted by POST /api/users satisfies the structural
    rule of the route: with the role [user] it has a team leader and a
    manager, with the role [tl] it has a manager; it is active, and its
    email was held by no document before. *)
Theorem createUser_links
    (trim email_setters bcrypt_hash : string -> string) (new_id : Id) (now : nat)
    (d : Directory) (a : Id) (body : CreateBody) :
  code (snd (createUser trim email_setters bcrypt_hash new_id now d a body)) = 201 ->
  exists newUser,
    fst (createUser trim email_setters bcrypt_hash new_id now d a body) = insertOne newUser d
    /\ (role newUser = user -> is_Some (tlId newUser))
    /\ (role newUser = user \/ role newUser = tl ->
        is_Some (managerId newUser))
    /\ status newUser = active
    /\ forall u, u ∈ d -> email u <> email newUser.
Proof.
  intros H. apply createUser_201 in H
    as (cu & r & fn & ln & em & pw & ph & Ha & Hr & Hc & Ht & Hm & Hem & Hn & E).
  rewrite E. eexists. split; [reflexivity|]. cbn [role tlId managerId status email].
  repeat split.
  - intros Hu. apply not_eq_None_Some. auto.
  - intros Hu. apply not_eq_None_Some. auto.
  - intros u Hu. rewrite findOne_None in Hn. specialize (Hn u Hu).
    simpl in Hn. apply bool_decide_eq_false in Hn. exact Hn.
Qed.

Lemma createUser_links_witness :
  exists newUser,
    fst (createUser asciiTrim asciiEmail (fun pw => "$2b$10$" ++ pw) 12 0 dummyUsers 3
           {| cb_firstName := Some "User"; cb_lastName := Some "Five";
              cb_email := Some "user5@example.com";
              cb_password := Some "password";
              cb_phoneNum := Some "1414141414"; cb_role := Some user;
              cb_department := None; cb_position := None;
              cb_tlId := Some 5; cb_managerId := Some 3 |})
    = insertOne newUser dummyUsers
    /\ (role newUser = user -> is_Some (tlId newUser))
    /\ (role newUser = user \/ role newUser = tl ->
        is_Some (managerId newUser))
    /\ status newUser = active
    /\ forall u, u ∈ dummyUsers -> email u <> email newUser.
Proof.
  apply (createUser_links asciiTrim asciiEmail (fun pw => "$2b$10$" ++ pw) 12 0 dummyUsers 3).
  reflexivity.
Defined.

(** X6. POST /api/users answers 403 and inserts nothing when the actor has
    the role [user], when the role asked for is [master], when it is the
    actor's own role, and when the body has no role: nobody creates a
    master or a peer, and users create nobody. *)
Theorem createUser_refused
    (trim email_setters bcrypt_hash : string -> string) (new_id : Id) (now : nat)
    (d : Directory) (a : Id) (body : CreateBody) (cu : User) :
  findById a d = Some cu ->
  role cu = user \/ cb_role body = Some master
  \/ cb_role body = Some (role cu) \/ cb_role body = None ->
  createUser trim email_setters bcrypt_hash new_id now d a body
  = (d, fail 403 "You don't have permission to create users with this role").
Proof.
  intros Ha H. unfold createUser. rewrite Ha.
  destruct (cb_role body) as [r|]; [|reflexivity].
  assert (Hc : canManageRole (role cu) r = false).
  { destruct H as [H | [H | [H | H]]].
    - rewrite H. destruct r; reflexivity.
    - injection H as ->. destruct (role cu); reflexivity.
    - injection H as ->. apply canManageRole_irrefl.
    - discriminate. }
  rewrite Hc. reflexivity.
Qed.

Lemma createUser_refused_witness :
  createUser asciiTrim asciiEmail (fun pw => "$2b$10$" ++ pw) 12 0 dummyUsers 2
    {| cb_firstName := Some "Second"; cb_lastName := Some "Master";
       cb_email := Some "master2@example.com"; cb_password := Some "password";
       cb_phoneNum := Some "1515151515"; cb_role := Some master;
       cb_department := None; cb_position := None;
       cb_tlId := None; cb_managerId := None |}
  = (dummyUsers,
     fail 403 "You don't have permission to create users with this role").
Proof.
  apply (createUser_refused _ _ _ 12 0 dummyUsers 2 _ admin1 eq_refl).
  right. left. reflexivity.
Defined.

Lemma NoDup_email_insertOne d u :
  NoDup (map email d) -> findOne (QEmail (email u)) d = None ->
  NoDup (map email (insertOne u d)).
Proof.
  intros Hnd Hn. unfold insertOne. rewrite map_app. simpl.
  apply NoDup_app. split; [exact Hnd|]. split; [|apply NoDup_singleton].
  intros e He Hin. apply list_elem_of_singleton in Hin as ->.
  apply list_elem_of_fmap in He as (x & Hx & Hin).
  rewrite findOne_None in Hn. specialize (Hn x Hin). simpl in Hn.
  apply bool_decide_eq_false in Hn. congruence.
Qed.

Lemma createUser_not_201 trim email_setters bcrypt_hash new_id now d a body :
  code (snd (createUser trim email_setters bcrypt_hash new_id now d a body)) <> 201 ->
  fst (createUser trim email_setters bcrypt_hash new_id now d a body) = d.
Proof.
  unfold createUser.
  repeat (match goal with
          | |- context [if ?x then _ else _] => destruct x
          | |- context [match ?x with Some _ => _ | None => _ end] =>
              destruct x
          end; try (intros _; reflexivity)).
  intros H. contradiction H. reflexivity.
Qed.

(** X7. The two inserting routes keep the emails of the collection
    pairwise different. *)
Theorem insertions_keep_emails_unique
    (trim email_setters bcrypt_hash : string -> string) (new_id : Id) (now : nat)
    (d : Directory) :
  NoDup (map email d) ->
  (forall a body,
     NoDup (map email (fst (createUser trim email_setters bcrypt_hash new_id now d a body))))
  /\ (forall body,
        NoDup (map email (fst (signUp trim email_setters bcrypt_hash new_id now d body)))).
Proof.
  intros Hnd. split.
  - intros a body.
    destruct (decide (code (snd (createUser trim email_setters bcrypt_hash new_id now d a body))
                      = 201)) as [Hok | Hno].
    + apply createUser_201 in Hok
        as (cu & r & fn & ln & em & pw & ph & _ & _ & _ & _ & _ & _ & Hn & E).
      rewrite E. apply NoDup_email_insertOne; assumption.
    + rewrite (createUser_not_201 _ _ _ _ _ _ _ _ Hno). exact Hnd.
  - intros body.
    destruct (decide (code (snd (signUp trim email_setters bcrypt_hash new_id now d body)) = 201))
      as [Hok | Hno].
    + apply signUp_201 in Hok
        as (fn & ln & em & pw & ph & _ & _ & _ & _ & _ & _ & Hn & _ & _ & _
            & _ & E).
      rewrite E. apply NoDup_email_insertOne; assumption.
    + rewrite (proj1 (signUp_not_201 _ _ _ _ _ _ _ Hno)). exact Hnd.
Qed.

Lemma insertions_keep_emails_unique_witness :
  (forall a body,
     NoDup (map email
              (fst (createUser asciiTrim asciiEmail (fun pw => "$2b$10$" ++ pw) 12 0
                      dummyUsers a body))))
  /\ (forall body,
        NoDup (map email
                 (fst (signUp asciiTrim asciiEmail (fun pw => "$2b$10$" ++ pw) 12 0
                         dummyUsers body)))).
Proof.
  apply (insertions_keep_emails_unique asciiTrim asciiEmail (fun pw => "$2b$10$" ++ pw) 12 0
           dummyUsers).
  apply (bool_decide_unpack _). vm_compute. exact I.
Defined.

Lemma findById_insertOne d u j :
  findById j (insertOne u d)
  = match findById j d with
    | Some x => Some x
    | None => if decide (_id u = j) then Some u else None
    end.
Proof.
  unfold findById. destruct (findOne (QId j) d) as [x|] eqn:E.
  - apply findOne_insertOne_old. exact E.
  - destruct (decide (_id u = j)) as [e|n].
    + apply findOne_insertOne_new; [exact E|].
      simpl. apply bool_decide_eq_true. exact e.
    + rewrite findOne_insertOne_other; [exact E|].
      simpl. apply bool_decide_eq_false. exact n.
Qed.

Lemma findById_fresh d j : j ∉ map _id d -> findById j d = None.
Proof.
  intros H. apply findOne_None. intros u Hu. simpl.
  apply bool_decide_eq_false. intros <-. apply H.
  apply list_elem_of_fmap. eauto.
Qed.

(** X8. Insert and look up: when the id given to the new document is not
    in the collection, a creation answered 201 can be read back under that
    id by anybody, with the role and the links of the body, the other ids
    still name the documents they named, and the response carries the new
    id. *)
Theorem createUser_then_fetch
    (trim email_setters bcrypt_hash : string -> string) (new_id : Id) (now : nat)
    (d : Directory) (a : Id) (body : CreateBody) :
  new_id ∉ map _id d ->
  code (snd (createUser trim email_setters bcrypt_hash new_id now d a body)) = 201 ->
  let out := createUser trim email_setters bcrypt_hash new_id now d a body in
  exists newUser,
    (forall x, getUserById (fst out) x new_id
               = json (select_minus_password newUser))
    /\ cb_role body = Some (role newUser)
    /\ tlId newUser = cb_tlId body
    /\ managerId newUser = cb_managerId body
    /\ (cv_id <$> data (snd out)) = Some new_id
    /\ forall j, j <> new_id -> findById j (fst out) = findById j d.
Proof.
  intros Hfresh Hok. apply createUser_201 in Hok
    as (cu & r & fn & ln & em & pw & ph & Ha & Hr & _ & _ & _ & _ & _ & E).
  cbv zeta. rewrite E. eexists. cbn [fst snd]. split; [|split; [|split; [|split; [|split]]]].
  - intros x. unfold getUserById. rewrite findById_insertOne.
    rewrite (findById_fresh d new_id Hfresh). cbn [_id].
    rewrite decide_True by reflexivity. reflexivity.
  - exact Hr.
  - reflexivity.
  - reflexivity.
  - reflexivity.
  - intros j Hj. rewrite findById_insertOne. cbn [_id].
    rewrite decide_False by congruence. destruct (findById j d); reflexivity.
Qed.

Lemma createUser_then_fetch_witness :
  let body :=
    {| cb_firstName := Some "Team Leader"; cb_lastName := Some "Four";
       cb_email := Some "tl4@example.com"; cb_password := Some "password";
       cb_phoneNum := Some "1616161616"; cb_role := Some tl;
       cb_department := Some "Sales"; cb_position := None;
       cb_tlId := None; cb_managerId := Some 4 |} in
  let out := createUser asciiTrim asciiEmail (fun pw => "$2b$10$" ++ pw) 12 0 dummyUsers 4 body in
  exists newUser,
    (forall x, getUserById (fst out) x 12
               = json (select_minus_password newUser))
    /\ cb_role body = Some (role newUser)
    /\ tlId newUser = cb_tlId body
    /\ managerId newUser = cb_managerId body
    /\ (cv_id <$> data (snd out)) = Some 12
    /\ forall j, j <> 12 -> findById j (fst out) = findById j dummyUsers.
Proof.
  intros body.
  apply (createUser_then_fetch asciiTrim asciiEmail (fun pw => "$2b$10$" ++ pw) 12 0 dummyUsers 4
           body).
  - apply (bool_decide_unpack _). vm_compute. exact I.
  - reflexivity.
Defined.

(** ** Updating users *)

Lemma findById_updateFirst_ne i j f d :
  (forall u, _id (f u) = _id u) -> j <> i ->
  findById j (updateFirst i f d) = findById j d.
Proof.
  intros Hf Hne. induction d as [|x d IH]; [reflexivity|]. simpl.
  destruct (decide (_id x = i)) as [e|n].
  - rewrite !findById_cons, Hf.
    rewrite !decide_False by congruence. reflexivity.
  - rewrite !findById_cons, IH. reflexivity.
Qed.

(** What an update by somebody else does once the actor and the target are
    found. *)
Lemma updateUser_other d a t b cu tu :
  a <> t -> findById a d = Some cu -> findById t d = Some tu ->
  updateUser d a t b
  = if negb (canManageRole (role cu) (role tu))
    then (d, fail 403 "You don't have permission to update this user")
    else if match ub_role b with
            | Some r => bool_decide (r <> role tu)
                        && negb (canManageRole (role cu) r)
            | None => false
            end
    then (d, fail 403 "You don't have permission to assign this role")
    else if emailTaken t b d then (d, fail 500 "Internal server error")
    else (updateFirst t (applyUpdates b) d,
          json_msg 200 "User updated successfully"
            (Some (select_minus_password (applyUpdates b tu)))).
Proof.
  intros Hne Ha Ht. unfold updateUser. rewrite Ha, Ht.
  destruct (findById_Some _ _ _ Ha) as [Hi _].
  rewrite (bool_decide_eq_true_2 (_id cu <> t)) by congruence.
  cbn [andb]. destruct (ub_role b) as [r|]; [|reflexivity].
  rewrite andb_true_r. reflexivity.
Qed.

(** X9. An update of somebody else's document that is answered 200 was
    asked by an actor whose role manages the role the target had, and, when
    the body names one of the five roles, that role as well; the actor's own
    document is not touched. *)
Theorem updateUser_rank_bound
    (d : Directory) (a t : Id) (b : UpdateBody) (cu tu : User) :
  a <> t -> findById a d = Some cu -> findById t d = Some tu ->
  code (snd (updateUser d a t b)) = 200 ->
  canManageRole (role cu) (role tu) = true
  /\ (forall r, ub_role b = Some r -> canManageRole (role cu) r = true)
  /\ findById a (fst (updateUser d a t b)) = Some cu.
Proof.
  intros Hne Ha Ht. rewrite (updateUser_other d a t b cu tu Hne Ha Ht).
  destruct (canManageRole (role cu) (role tu)) eqn:Hc; [|discriminate].
  cbn [negb].
  destruct (match ub_role b with
            | Some r => bool_decide (r <> role tu)
                        && negb (canManageRole (role cu) r)
            | None => false
            end) eqn:Hr; [discriminate|].
  destruct (emailTaken t b d); [discriminate|]. intros _. cbn [fst].
  split; [reflexivity|]. split.
  - intros r Hb. rewrite Hb in Hr.
    apply andb_false_iff in Hr as [Hr | Hr].
    + apply bool_decide_eq_false in Hr.
      destruct (decide (r = role tu)) as [-> | n]; [exact Hc|].
      contradiction.
    + apply negb_false_iff in Hr. exact Hr.
  - rewrite findById_updateFirst_ne; [exact Ha | reflexivity | exact Hne].
Qed.

Lemma updateUser_rank_bound_witness :
  canManageRole (role admin1) (role tl1) = true
  /\ (forall r, ub_role (setRole manager) = Some r ->
                canManageRole (role admin1) r = true)
  /\ findById 2 (fst (updateUser dummyUsers 2 5 (setRole manager)))
     = Some admin1.
Proof.
  apply (updateUser_rank_bound dummyUsers 2 5 (setRole manager) admin1 tl1).
  - discriminate.
  - reflexivity.
  - reflexivity.
  - reflexivity.
Defined.

Lemma updateFirst_frame i b d :
  map _id (updateFirst i (applyUpdates b) d) = map _id d
  /\ map password (updateFirst i (applyUpdates b) d) = map password d
  /\ map createdAt (updateFirst i (applyUpdates b) d) = map createdAt d
  /\ filter (fun u => _id u <> i) (updateFirst i (applyUpdates b) d)
     = filter (fun u => _id u <> i) d.
Proof.
  induction d as [|x d (IH1 & IH2 & IH3 & IH4)]; [repeat split|].
  simpl. destruct (decide (_id x = i)) as [e|n].
  - repeat split.
    rewrite !filter_cons_False; [reflexivity | | ]; simpl; intros H;
      apply H; exact e.
  - simpl. rewrite IH1, IH2, IH3. repeat split.
    rewrite !filter_cons_True by exact n. rewrite IH4. reflexivity.
Qed.

Lemma updateUser_fst d a t b :
  fst (updateUser d a t b) = d
  \/ fst (updateUser d a t b) = updateFirst t (applyUpdates b) d.
Proof.
  unfold updateUser.
  repeat (match goal with
          | |- context [if ?x then _ else _] => destruct x
          | |- context [match ?x with Some _ => _ | None => _ end] =>
              destruct x
          end; try (left; reflexivity)).
  right. reflexivity.
Qed.

(** X10. Whatever its answer, an update leaves the ids, the password
    hashes and the creation dates of all documents as they are, in the same
    order, and does not touch any document with another id than the
    target's. *)
Theorem updateUser_frame (d : Directory) (a t : Id) (b : UpdateBody) :
  let d' := fst (updateUser d a t b) in
  map _id d' = map _id d
  /\ map password d' = map password d
  /\ map createdAt d' = map createdAt d
  /\ filter (fun u => _id u <> t) d' = filter (fun u => _id u <> t) d.
Proof.
  cbv zeta. destruct (updateUser_fst d a t b) as [-> | ->].
  - repeat split.
  - apply updateFirst_frame.
Qed.

Lemma applyUpdates_idem b u : applyUpdates b (applyUpdates b u) = applyUpdates b u.
Proof.
  destruct b as [fn ln em ph r dep pos tl_ mg st], u. unfold applyUpdates.
  simpl. f_equal; match goal with
                  | |- context [default _ ?o] => destruct o
                  | |- context [from_option _ _ ?o] => destruct o
                  end; reflexivity.
Qed.

Lemma updateFirst_idem i b d :
  updateFirst i (applyUpdates b) (updateFirst i (applyUpdates b) d)
  = updateFirst i (applyUpdates b) d.
Proof.
  induction d as [|x d IH]; [reflexivity|]. simpl.
  destruct (decide (_id x = i)) as [e|n]; simpl.
  - rewrite decide_True by exact e. rewrite applyUpdates_idem. reflexivity.
  - rewrite decide_False by exact n. rewrite IH. reflexivity.
Qed.

Lemma emailTaken_updateFirst i b b' d :
  emailTaken i b' (updateFirst i (applyUpdates b) d) = emailTaken i b' d.
Proof.
  unfold emailTaken. destruct (ub_email b') as [e|]; [|reflexivity].
  apply bool_decide_ext. induction d as [|x d IH]; [reflexivity|]. simpl.
  destruct (decide (_id x = i)) as [Hx|Hx].
  - rewrite !Exists_cons. simpl. tauto.
  - rewrite !Exists_cons, IH. reflexivity.
Qed.

(** X11. For a body whose role is absent or one of the five roles, an
    update answered 200 is idempotent: the same request on the collection it
    has produced is answered in the same way and produces that collection
    again. *)
Theorem updateUser_idempotent (d : Directory) (a t : Id) (b : UpdateBody) :
  code (snd (updateUser d a t b)) = 200 ->
  updateUser (fst (updateUser d a t b)) a t b = updateUser d a t b.
Proof.
  intros Hok.
  destruct (findById a d) as [cu|] eqn:Ha;
    [|unfold updateUser in Hok; rewrite Ha in Hok; discriminate].
  destruct (findById t d) as [tu|] eqn:Ht;
    [|unfold updateUser in Hok; rewrite Ha, Ht in Hok; discriminate].
  assert (Hid : _id (applyUpdates b tu) = t)
    by (simpl; apply (findById_Some _ _ _ Ht)).
  destruct (decide (a = t)) as [-> | Hne].
  - rewrite (updateUser_self d t b cu Ha) in *.
    destruct (emailTaken t b d) eqn:E; [discriminate|]. cbn [fst].
    assert (cu = tu) as -> by congruence.
    rewrite (updateUser_self _ t b (applyUpdates b tu)
               (findById_updateFirst t _ d tu Ht Hid)).
    rewrite emailTaken_updateFirst, E, updateFirst_idem, applyUpdates_idem.
    reflexivity.
  - rewrite (updateUser_other d a t b cu tu Hne Ha Ht) in *.
    destruct (canManageRole (role cu) (role tu)) eqn:Hc; [|discriminate].
    cbn [negb] in *.
    destruct (match ub_role b with
              | Some r => bool_decide (r <> role tu)
                          && negb (canManageRole (role cu) r)
              | None => false
              end) eqn:Hr; [discriminate|].
    destruct (emailTaken t b d) eqn:E; [discriminate|]. cbn [fst].
    rewrite (updateUser_other _ a t b cu (applyUpdates b tu) Hne).
    + rewrite emailTaken_updateFirst, E, updateFirst_idem, applyUpdates_idem.
      cbn [role applyUpdates].
      destruct (ub_role b) as [r|]; cbn [from_option]; unfold id.
      * rewrite (bool_decide_eq_false_2 (r <> r))
          by (intros H; apply H; reflexivity).
        cbn [andb]. apply andb_false_iff in Hr as [Hr | Hr].
        -- apply bool_decide_eq_false in Hr.
           destruct (decide (r = role tu)) as [-> | n]; [|contradiction].
           rewrite Hc. reflexivity.
        -- apply negb_false_iff in Hr. rewrite Hr. reflexivity.
      * rewrite Hc. reflexivity.
    + rewrite findById_updateFirst_ne; [exact Ha | reflexivity | exact Hne].
    + apply findById_updateFirst; assumption.
Qed.

Lemma updateUser_idempotent_witness :
  updateUser (fst (updateUser dummyUsers 1 6 (setRole user))) 1 6
    (setRole user)
  = updateUser dummyUsers 1 6 (setRole user).
Proof.
  apply (updateUser_idempotent dummyUsers 1 6 (setRole user)). reflexivity.
Defined.

(** X12. A document whose rank is not below the actor's is protected from
    that actor: an update by somebody else and a deletion are both answered
    403 and leave the collection as it is. In particular nobody but a
    master themself updates a master's document, and nobody deletes it. *)
Theorem not_outranked_is_protected
    (d : Directory) (a t : Id) (b : UpdateBody) (cu tu : User) :
  findById a d = Some cu -> findById t d = Some tu ->
  (roleHierarchy (role cu) <= roleHierarchy (role tu))%Z ->
  (a <> t ->
   updateUser d a t b
   = (d, fail 403 "You don't have permission to update this user"))
  /\ deleteUser d a t
     = (d, fail 403 "You don't have permission to delete this user").
Proof.
  intros Ha Ht Hle.
  assert (Hc : canManageRole (role cu) (role tu) = false).
  { destruct (canManageRole (role cu) (role tu)) eqn:E; [|reflexivity].
    apply canManageRole_rank in E. lia. }
  split.
  - intros Hne. rewrite (updateUser_other d a t b cu tu Hne Ha Ht), Hc.
    reflexivity.
  - unfold deleteUser. rewrite Ha, Ht, Hc. reflexivity.
Qed.

Lemma not_outranked_is_protected_witness :
  (2 <> 1 ->
   updateUser dummyUsers 2 1 (setRole user)
   = (dummyUsers, fail 403 "You don't have permission to update this user"))
  /\ deleteUser dummyUsers 2 1
     = (dummyUsers, fail 403 "You don't have permission to delete this user").
Proof.
  apply (not_outranked_is_protected dummyUsers 2 1 (setRole user)
           admin1 masteradmin eq_refl eq_refl).
  vm_compute. discriminate.
Defined.

(** ** Deleting users *)

Lemma deleteUser_unfold d a t cu tu :
  findById a d = Some cu -> findById t d = Some tu ->
  deleteUser d a t
  = if negb (canManageRole (role cu) (role tu))
    then (d, fail 403 "You don't have permission to delete this user")
    else match hasSubordinates d t with
         | Some _ =>
             (d, fail 400
                "Cannot delete user with subordinates. Reassign subordinates first.")
         | None =>
             (deleteFirst t d, json_msg 200 "User deleted successfully" None)
         end.
Proof. intros Ha Ht. unfold deleteUser. rewrite Ha, Ht. reflexivity. Qed.

(** X13. A deletion is answered 200 exactly when the actor and the target
    have documents, the actor's role manages the target's and no document
    names the target as manager or team leader; the actor is then somebody
    else than the target. Every other deletion leaves the collection as it
    is. *)
Theorem deleteUser_outcome (d : Directory) (a t : Id) :
  (code (snd (deleteUser d a t)) = 200
   <-> exists cu tu,
         findById a d = Some cu /\ findById t d = Some tu
         /\ canManageRole (role cu) (role tu) = true
         /\ hasSubordinates d t = None)
  /\ (code (snd (deleteUser d a t)) = 200 ->
      a <> t /\ fst (deleteUser d a t) = deleteFirst t d)
  /\ (code (snd (deleteUser d a t)) <> 200 -> fst (deleteUser d a t) = d).
Proof.
  destruct (findById a d) as [cu|] eqn:Ha.
  2:{ unfold deleteUser. rewrite Ha. simpl. repeat split; try discriminate.
      intros (cu & tu & H & _). discriminate. }
  destruct (findById t d) as [tu|] eqn:Ht.
  2:{ unfold deleteUser. rewrite Ha, Ht. simpl. repeat split; try discriminate.
      intros (cu' & tu & _ & H & _). discriminate. }
  rewrite (deleteUser_unfold d a t cu tu Ha Ht).
  destruct (canManageRole (role cu) (role tu)) eqn:Hc; cbn [negb].
  - destruct (hasSubordinates d t) as [s|] eqn:Hs; simpl.
    + repeat split; try discriminate.
      intros (cu' & tu' & _ & _ & _ & H). discriminate.
    + repeat split.
      * intros _. exists cu, tu. repeat split. exact Hc.
      * intros -> . assert (cu = tu) as -> by congruence.
        rewrite canManageRole_irrefl in Hc. discriminate.
      * intros H. contradiction H. reflexivity.
  - simpl. repeat split; try discriminate.
    intros (cu' & tu' & [= <-] & [= <-] & H & _). congruence.
Qed.

Lemma deleteFirst_elem_of_1 t d u : u ∈ deleteFirst t d -> u ∈ d.
Proof.
  induction d as [|x d IH]; simpl; [auto|].
  destruct (decide (_id x = t)); rewrite ?elem_of_cons; [auto|].
  intros [-> | H]; auto.
Qed.

Lemma deleteFirst_elem_of_2 t d u : u ∈ d -> _id u <> t -> u ∈ deleteFirst t d.
Proof.
  induction d as [|x d IH]; simpl; [auto|]. rewrite elem_of_cons.
  destruct (decide (_id x = t)) as [e|n].
  - intros [-> | H] Hne; [contradiction | exact H].
  - rewrite elem_of_cons. intros [-> | H] Hne; auto.
Qed.

Lemma hasSubordinates_None d t :
  hasSubordinates d t = None ->
  forall u, u ∈ d -> managerId u <> Some t /\ tlId u <> Some t.
Proof.
  intros Hn u Hu. destruct (hasSubordinates_iff d t) as [_ H].
  split; intros Hl; destruct H as [s Hs]; eauto; congruence.
Qed.

Lemma deleteUser_fst d a t :
  fst (deleteUser d a t) = d
  \/ (hasSubordinates d t = None /\ fst (deleteUser d a t) = deleteFirst t d).
Proof.
  unfold deleteUser.
  destruct (findById a d); [|left; reflexivity].
  destruct (findById t d); [|left; reflexivity].
  destruct (negb _); [left; reflexivity|].
  destruct (hasSubordinates d t); [left; reflexivity|].
  right. split; reflexivity.
Qed.

(** X14. Deleting keeps the references whole: if every [managerId] and
    [tlId] of the collection names a document of the collection, this is
    still so after any DELETE request. *)
Theorem deleteUser_keeps_links (d : Directory) (a t : Id) :
  links_resolve d -> links_resolve (fst (deleteUser d a t)).
Proof.
  intros Hl. destruct (deleteUser_fst d a t) as [-> | [Hn ->]]; [exact Hl|].
  intros u i Hu Hlink. apply deleteFirst_elem_of_1 in Hu.
  destruct (Hl u i Hu Hlink) as (x & Hx & Hi).
  exists x. split; [|exact Hi]. apply deleteFirst_elem_of_2; [exact Hx|].
  destruct (hasSubordinates_None d t Hn u Hu) as [Hm Ht].
  destruct Hlink; congruence.
Qed.

Lemma links_resolve_dummyUsers : links_resolve dummyUsers.
Proof.
  intros u i Hu Hl.
  assert (H : is_Some (findById i dummyUsers)).
  { unfold dummyUsers in Hu.
    repeat (apply elem_of_cons in Hu as [-> | Hu];
            [destruct Hl as [Hl | Hl]; simpl in Hl; try discriminate Hl;
             injection Hl as <-; vm_compute; eauto |]).
    inversion Hu. }
  destruct H as [x Hx]. exists x.
  destruct (findById_Some _ _ _ Hx). auto.
Qed.

Lemma deleteUser_keeps_links_witness :
  links_resolve (fst (deleteUser dummyUsers 1 11)).
Proof.
  apply (deleteUser_keeps_links dummyUsers 1 11). exact links_resolve_dummyUsers.
Defined.

Lemma findById_deleteFirst_ne t j d :
  j <> t -> findById j (deleteFirst t d) = findById j d.
Proof.
  intros Hne. induction d as [|x d IH]; [reflexivity|]. simpl.
  destruct (decide (_id x = t)) as [e|n].
  - rewrite findById_cons. rewrite decide_False by congruence. reflexivity.
  - rewrite !findById_cons, IH. reflexivity.
Qed.

Lemma findById_deleteFirst_eq t d :
  NoDup (map _id d) -> findById t (deleteFirst t d) = None.
Proof.
  intros Hnd. apply findOne_None. intros u Hu. simpl.
  apply bool_decide_eq_false.
  apply (elem_of_deleteFirst t d u Hnd) in Hu as [_ Hne]. exact Hne.
Qed.

Lemma NoDup_deleteFirst t d :
  NoDup (map _id d) -> NoDup (map _id (deleteFirst t d)).
Proof.
  induction d as [|x d IH]; simpl; [auto|]. intros Hnd.
  apply NoDup_cons in Hnd as [Hx Hnd].
  destruct (decide (_id x = t)); [exact Hnd|]. simpl.
  apply NoDup_cons. split; [|auto].
  intros Hin. apply Hx. apply list_elem_of_fmap in Hin as (y & Hy & Hin).
  apply list_elem_of_fmap. exists y. split; [exact Hy|].
  eapply deleteFirst_elem_of_1. exact Hin.
Qed.

(** X15. Delete and look up, ids being unique: after a deletion answered
    200 the target's id names no document, fetching it is answered 404, and
    the same deletion asked again is answered 404 and changes nothing. *)
Theorem deleteUser_then_gone (d : Directory) (a t : Id) :
  NoDup (map _id d) ->
  code (snd (deleteUser d a t)) = 200 ->
  let d' := fst (deleteUser d a t) in
  findById t d' = None
  /\ (forall x, getUserById d' x t = fail 404 "User not found")
  /\ deleteUser d' a t = (d', fail 404 "User to delete not found").
Proof.
  intros Hnd Hok. cbv zeta.
  destruct (findById a d) as [cu|] eqn:Ha;
    [|unfold deleteUser in Hok; rewrite Ha in Hok; discriminate].
  destruct (findById t d) as [tu|] eqn:Ht;
    [|unfold deleteUser in Hok; rewrite Ha, Ht in Hok; discriminate].
  rewrite (deleteUser_unfold d a t cu tu Ha Ht) in *.
  destruct (canManageRole (role cu) (role tu)) eqn:Hc; [|discriminate].
  cbn [negb] in *. destruct (hasSubordinates d t); [discriminate|]. cbn [fst].
  assert (Hne : a <> t).
  { intros ->. assert (cu = tu) as -> by congruence.
    rewrite canManageRole_irrefl in Hc. discriminate. }
  assert (Hgone := findById_deleteFirst_eq t d Hnd).
  split; [exact Hgone|]. split.
  - intros x. unfold getUserById. rewrite Hgone. reflexivity.
  - unfold deleteUser. rewrite (findById_deleteFirst_ne t a d Hne), Ha, Hgone.
    reflexivity.
Qed.

Lemma deleteUser_then_gone_witness :
  let d' := fst (deleteUser dummyUsers 1 11) in
  findById 11 d' = None
  /\ (forall x, getUserById d' x 11 = fail 404 "User not found")
  /\ deleteUser d' 1 11 = (d', fail 404 "User to delete not found").
Proof.
  apply (deleteUser_then_gone dummyUsers 1 11).
  - apply (bool_decide_unpack _). vm_compute. exact I.
  - reflexivity.
Defined.

(** ** Unique ids *)

Lemma NoDup_id_insertOne d u :
  NoDup (map _id d) -> _id u ∉ map _id d -> NoDup (map _id (insertOne u d)).
Proof.
  intros Hnd Hf. unfold insertOne. rewrite map_app. simpl.
  apply NoDup_app. split; [exact Hnd|]. split; [|apply NoDup_singleton].
  intros i Hi Hin. apply list_elem_of_singleton in Hin as ->. contradiction.
Qed.

(** X16. The ids of the collection stay pairwise different under every
    route that writes to it: updates and deletions always keep them so, and
    the two inserting routes do when the id given to the new document is not
    in the collection yet. *)
Theorem routes_keep_ids_unique
    (trim email_setters bcrypt_hash : string -> string) (new_id : Id) (now : nat)
    (d : Directory) :
  NoDup (map _id d) ->
  (forall a t b, NoDup (map _id (fst (updateUser d a t b))))
  /\ (forall a t, NoDup (map _id (fst (deleteUser d a t))))
  /\ (new_id ∉ map _id d ->
      (forall a body,
         NoDup (map _id (fst (createUser trim email_setters bcrypt_hash new_id now d a body))))
      /\ (forall body,
            NoDup (map _id (fst (signUp trim email_setters bcrypt_hash new_id now d body))))).
Proof.
  intros Hnd. split; [|split].
  - intros a t b. destruct (updateUser_fst d a t b) as [-> | ->]; [exact Hnd|].
    rewrite (proj1 (updateFirst_frame t b d)). exact Hnd.
  - intros a t. destruct (deleteUser_fst d a t) as [-> | [_ ->]]; [exact Hnd|].
    apply NoDup_deleteFirst. exact Hnd.
  - intros Hf. split.
    + intros a body.
      destruct (decide (code (snd (createUser trim email_setters bcrypt_hash new_id now d a body))
                        = 201)) as [Hok | Hno].
      * apply createUser_201 in Hok
          as (cu & r & fn & ln & em & pw & ph & _ & _ & _ & _ & _ & _ & _ & E).
        rewrite E. apply NoDup_id_insertOne; assumption.
      * rewrite (createUser_not_201 _ _ _ _ _ _ _ _ Hno). exact Hnd.
    + intros body.
      destruct (decide (code (snd (signUp trim email_setters bcrypt_hash new_id now d body))
                        = 201)) as [Hok | Hno].
      * apply signUp_201 in Hok
          as (fn & ln & em & pw & ph & _ & _ & _ & _ & _ & _ & _ & _ & _ & _
              & _ & E).
        rewrite E. apply NoDup_id_insertOne; assumption.
      * rewrite (proj1 (signUp_not_201 _ _ _ _ _ _ _ Hno)). exact Hnd.
Qed.

Lemma routes_keep_ids_unique_witness :
  (forall a t b, NoDup (map _id (fst (updateUser dummyUsers a t b))))
  /\ (forall a t, NoDup (map _id (fst (deleteUser dummyUsers a t))))
  /\ (12 ∉ map _id dummyUsers ->
      (forall a body,
         NoDup (map _id (fst (createUser asciiTrim asciiEmail (fun pw => "$2b$10$" ++ pw) 12 0
                                dummyUsers a body))))
      /\ (forall body,
            NoDup (map _id (fst (signUp asciiTrim asciiEmail (fun pw => "$2b$10$" ++ pw) 12 0
                                   dummyUsers body))))).
Proof.
  apply (routes_keep_ids_unique asciiTrim asciiEmail (fun pw => "$2b$10$" ++ pw) 12 0 dummyUsers).
  apply (bool_decide_unpack _). vm_compute. exact I.
Defined.

(** ** The dashboard and the listing *)






(** X18. The listing of an admin shows exactly the documents of the
    collection whose role the admin's role manages in the sense of
    [canManageRole]. *)
Theorem visibleUsers_admin_manageable (d : Directory) (cu u : User) :
  role cu = admin ->
  u ∈ visibleUsers d cu
  <-> u ∈ d /\ canManageRole (role cu) (role u) = true.
Proof.
  intros Hr. rewrite (visibleUsers_admin d cu Hr), elem_of_find, Hr.
  assert (H : matches (QRoleIn [manager; tl; user]) u
              = canManageRole admin (role u))
    by (simpl; destruct (role u); reflexivity).
  rewrite H. tauto.
Qed.

Lemma visibleUsers_admin_manageable_witness :
  tl2 ∈ visibleUsers dummyUsers admin1
  <-> tl2 ∈ dummyUsers /\ canManageRole (role admin1) (role tl2) = true.
Proof.
  apply (visibleUsers_admin_manageable dummyUsers admin1 tl2). reflexivity.
Defined.

(** ** Notifications *)

Lemma findOneAndSetRead_spec i usr ns :
  map setRead (fst (findOneAndSetRead i usr ns)) = map setRead ns
  /\ filter (fun n => n_user n <> usr) (fst (findOneAndSetRead i usr ns))
     = filter (fun n => n_user n <> usr) ns
  /\ match snd (findOneAndSetRead i usr ns) with
     | Some m =>
         exists n, n ∈ ns /\ n_id n = i /\ n_user n = usr /\ m = setRead n
                   /\ m ∈ fst (findOneAndSetRead i usr ns)
     | None =>
         fst (findOneAndSetRead i usr ns) = ns
         /\ forall n, n ∈ ns -> ~ (n_id n = i /\ n_user n = usr)
     end.
Proof.
  induction ns as [|x ns (IH1 & IH2 & IH3)].
  - simpl. repeat split. intros n Hn. inversion Hn.
  - simpl.
    destruct (bool_decide (n_id x = i) && bool_decide (n_user x = usr)) eqn:E.
    + apply andb_true_iff in E as [E1 E2].
      apply bool_decide_eq_true in E1, E2. cbn [fst snd]. repeat split.
      * rewrite !filter_cons_False; [reflexivity | | ]; simpl; intros H;
          apply H; exact E2.
      * exists x. repeat split; auto; left.
    + destruct (findOneAndSetRead i usr ns) as [ns'' r] eqn:Er.
      cbn [fst snd map] in *. rewrite IH1. split; [reflexivity|]. split.
      * rewrite !filter_cons, IH2. reflexivity.
      * destruct r as [m|].
        -- destruct IH3 as (n & Hn & H1 & H2 & H3 & H4).
           exists n. repeat split; auto; right; assumption.
        -- destruct IH3 as [-> IH3]. split; [reflexivity|].
           intros n Hn. apply elem_of_cons in Hn as [-> | Hn]; [|auto].
           intros [H1 H2]. apply andb_false_iff in E as [E | E];
             apply bool_decide_eq_false in E; contradiction.
Qed.

(** X19. Marking one notification as read: the answer is 200 exactly when
    a notification with that id belongs to the actor, and then the body is
    that notification with its flag set; otherwise the answer is 404 and
    nothing changes. In both cases nothing but read flags changes, and the
    notifications of other users are left as they are. *)
Theorem markRead_ownership (ns : list Notification) (usr i : Id) :
  let out := markRead ns usr i in
  map setRead (fst out) = map setRead ns
  /\ filter (fun n => n_user n <> usr) (fst out)
     = filter (fun n => n_user n <> usr) ns
  /\ (code (snd out) = 200
      <-> exists n, n ∈ ns /\ n_id n = i /\ n_user n = usr)
  /\ (code (snd out) = 200 ->
      exists n, n ∈ ns /\ n_id n = i /\ n_user n = usr
                /\ data (snd out) = Some (setRead n)
                /\ setRead n ∈ fst out)
  /\ (code (snd out) <> 200 ->
      out = (ns, fail 404 "Notification not found or does not belong to user")).
Proof.
  cbv zeta. unfold markRead.
  destruct (findOneAndSetRead_spec i usr ns) as (H1 & H2 & H3).
  destruct (findOneAndSetRead i usr ns) as [ns' [m|]]; cbn [fst snd] in *.
  - destruct H3 as (n & Hn & Hi & Hu & -> & Hin).
    split; [exact H1|]. split; [exact H2|].
    split; [split; [intros _; eauto | reflexivity]|].
    split; [intros _; exists n; repeat split; auto|].
    intros H. contradiction H. reflexivity.
  - destruct H3 as [-> H3].
    split; [exact H1|]. split; [exact H2|].
    split; [split; [discriminate|]|].
    + intros (n & Hn & Hi & Hu). exfalso. apply (H3 n Hn). auto.
    + split; [discriminate|]. intros _. reflexivity.
Qed.

Lemma setRead_idem n : setRead (setRead n) = setRead n.
Proof. reflexivity. Qed.

Lemma markAllRead_step_setRead usr n :
  setRead (if bool_decide (n_user n = usr) && bool_decide (n_read n = false)
           then setRead n else n) = setRead n.
Proof. destruct (_ && _); reflexivity. Qed.

(** X20. Marking all as read: afterwards every notification of the actor
    is read; nothing but read flags changes, no flag is cleared, and the
    notifications of other users are left as they are; asking twice is the
    same as asking once. *)
Theorem markAllRead_effect (ns : list Notification) (usr : Id) :
  let ns' := fst (markAllRead ns usr) in
  (forall n, n ∈ ns' -> n_user n = usr -> n_read n = true)
  /\ map setRead ns' = map setRead ns
  /\ Forall2 (fun n n' => n_read n = true -> n_read n' = true) ns ns'
  /\ filter (fun n => n_user n <> usr) ns'
     = filter (fun n => n_user n <> usr) ns
  /\ fst (markAllRead ns' usr) = ns'.
Proof.
  cbv zeta. unfold markAllRead. cbn [fst].
  induction ns as [|x ns (IH1 & IH2 & IH3 & IH4 & IH5)].
  - repeat split; try constructor. intros n Hn. inversion Hn.
  - cbn [map].
    assert (Hx : forall y,
               y = (if bool_decide (n_user x = usr)
                       && bool_decide (n_read x = false)
                    then setRead x else x) ->
               n_user y = n_user x
               /\ (n_user y = usr -> n_read y = true)
               /\ (n_read x = true -> n_read y = true)
               /\ (n_user x <> usr -> y = x)
               /\ (if bool_decide (n_user y = usr)
                      && bool_decide (n_read y = false)
                   then setRead y else y) = y).
    { intros y ->.
      destruct (bool_decide (n_user x = usr)) eqn:E1;
        destruct (bool_decide (n_read x = false)) eqn:E2; cbn [andb];
        try apply bool_decide_eq_true in E1;
        try apply bool_decide_eq_false in E1;
        try apply bool_decide_eq_true in E2;
        try apply bool_decide_eq_false in E2.
      - repeat split; auto; try contradiction.
        simpl. rewrite (bool_decide_eq_true_2 _ E1). reflexivity.
      - repeat split; auto.
        + intros _. destruct (n_read x); [reflexivity | contradiction].
        + rewrite (bool_decide_eq_true_2 _ E1).
          rewrite (bool_decide_eq_false_2 _ E2). reflexivity.
      - repeat split; auto; try contradiction.
        rewrite (bool_decide_eq_false_2 _ E1). reflexivity.
      - repeat split; auto; try contradiction.
        rewrite (bool_decide_eq_false_2 _ E1). reflexivity. }
    destruct (Hx _ eq_refl) as (Hu & Hr & Hm & Ho & Hi).
    split; [|split; [|split; [|split]]].
    + intros n Hn. apply elem_of_cons in Hn as [-> | Hn]; [exact Hr | auto].
    + rewrite markAllRead_step_setRead, IH2. reflexivity.
    + constructor; [exact Hm | exact IH3].
    + rewrite !filter_cons, Hu, IH4.
      destruct (decide (n_user x <> usr)) as [n|n]; [|reflexivity].
      rewrite (Ho n). reflexivity.
    + rewrite Hi, IH5. reflexivity.
Qed.

Lemma markAllRead_step_after_setRead usr x :
  n_user x = usr ->
  (if bool_decide (n_user (setRead x) = usr)
      && bool_decide (n_read (setRead x) = false)
   then setRead (setRead x) else setRead x)
  = (if bool_decide (n_user x = usr) && bool_decide (n_read x = false)
     then setRead x else x).
Proof.
  intros <-. destruct x as [i u t m r ty c]. cbn [n_user n_read setRead].
  rewrite (bool_decide_eq_true_2 (u = u)) by reflexivity.
  destruct r; reflexivity.
Qed.

(** X21. The two routes compose: marking one notification and then all of
    them gives what marking all of them gives, and marking all for two
    users gives the same in either order. *)
Theorem markRead_markAllRead (ns : list Notification) (usr usr' i : Id) :
  fst (markAllRead (fst (markRead ns usr i)) usr) = fst (markAllRead ns usr)
  /\ fst (markAllRead (fst (markAllRead ns usr)) usr')
     = fst (markAllRead (fst (markAllRead ns usr')) usr).
Proof.
  split.
  - unfold markRead.
    destruct (findOneAndSetRead i usr ns) as [ns' [m|]] eqn:E;
      [|reflexivity]. cbn [fst]. unfold markAllRead. cbn [fst].
    revert ns' m E. induction ns as [|x ns IH]; intros ns' m E.
    + discriminate.
    + simpl in E.
      destruct (bool_decide (n_id x = i) && bool_decide (n_user x = usr))
        eqn:Ex.
      * injection E as <- <-. cbn [map]. f_equal.
        apply andb_true_iff in Ex as [_ Ex]. apply bool_decide_eq_true in Ex.
        apply markAllRead_step_after_setRead. exact Ex.
      * destruct (findOneAndSetRead i usr ns) as [ns'' r].
        injection E as <- ->. cbn [map]. f_equal. apply (IH _ m eq_refl).
  - unfold markAllRead. cbn [fst]. rewrite !map_map. apply map_ext.
    intros n.
    destruct (bool_decide (n_user n = usr)) eqn:E1;
      destruct (bool_decide (n_user n = usr')) eqn:E2;
      destruct (bool_decide (n_read n = false)) eqn:E3; cbn [andb];
      cbn [n_user n_read setRead]; rewrite ?E1, ?E2, ?E3; cbn [andb];
      try reflexivity;
      rewrite ?(bool_decide_eq_false_2 (true = false)) by discriminate;
      rewrite ?andb_false_r; reflexivity.
Qed.

(** ** The reducer of the client *)

Lemma AuthReducer_step_consistent
    (CUser CPartial : Type) (spread : CUser -> CPartial -> CUser)
    (s : AuthReducer.AuthState CUser) (tok : option string)
    (a : AuthReducer.AuthAction CUser CPartial) :
  (AuthReducer.isAuthenticated _ s = true <-> is_Some (AuthReducer.st_user _ s))
  /\ (is_Some (AuthReducer.st_error _ s) -> AuthReducer.st_user _ s = None) ->
  let s' := fst (AuthReducer.AuthReducer CUser CPartial spread s tok a) in
  (AuthReducer.isAuthenticated _ s' = true
   <-> is_Some (AuthReducer.st_user _ s'))
  /\ (is_Some (AuthReducer.st_error _ s') -> AuthReducer.st_user _ s' = None).
Proof.
  intros [H1 H2]. destruct a; cbn.
  - split; [exact H1|]. intros [? ?]. discriminate.
  - split; [split; eauto|]. intros [? ?]. discriminate.
  - split; [|reflexivity]. split; [discriminate|]. intros [? ?]. discriminate.
  - split; [|reflexivity]. split; [discriminate|]. intros [? ?]. discriminate.
  - destruct (AuthReducer.st_user CUser s) as [u|].
    + split; [|intros He; discriminate (H2 He)].
      rewrite H1. split; eauto.
    + split; [exact H1 | reflexivity].
Qed.

(** X22. Whatever actions are dispatched from the initial state, the client
    is marked authenticated exactly when it holds a user object, and it
    holds none while an error is set. *)
Theorem AuthReducer_consistent
    (CUser CPartial : Type) (spread : CUser -> CPartial -> CUser)
    (actions : list (AuthReducer.AuthAction CUser CPartial))
    (tok : option string) :
  let s := fst (AuthReducer.dispatchAll CUser CPartial spread actions
                  (AuthReducer.initialState CUser, tok)) in
  (AuthReducer.isAuthenticated _ s = true <-> is_Some (AuthReducer.st_user _ s))
  /\ (is_Some (AuthReducer.st_error _ s) -> AuthReducer.st_user _ s = None).
Proof.
  cbv zeta. unfold AuthReducer.dispatchAll.
  assert (H0 : (AuthReducer.isAuthenticated _ (AuthReducer.initialState CUser)
                = true
                <-> is_Some (AuthReducer.st_user _
                               (AuthReducer.initialState CUser)))
               /\ (is_Some (AuthReducer.st_error _
                              (AuthReducer.initialState CUser)) ->
                   AuthReducer.st_user _ (AuthReducer.initialState CUser)
                   = None)).
  { cbn. split; [|reflexivity]. split; [discriminate|].
    intros [? ?]. discriminate. }
  revert H0. generalize (AuthReducer.initialState CUser). revert tok.
  induction actions as [|a actions IH]; intros tok s Hs; [exact Hs|].
  cbn [foldl fst snd].
  destruct (AuthReducer.AuthReducer CUser CPartial spread s tok a)
    as [s' tok'] eqn:E.
  apply IH.
  assert (H := AuthReducer_step_consistent CUser CPartial spread s tok a Hs).
  cbv zeta in H. rewrite E in H. exact H.
Qed.

(** X23. The [token] item of the local storage is touched by LOGOUT only:
    a sequence of actions without LOGOUT leaves it as it is, and a sequence
    that ends with LOGOUT ends in the initial state without a token. *)
Theorem AuthReducer_token
    (CUser CPartial : Type) (spread : CUser -> CPartial -> CUser)
    (actions : list (AuthReducer.AuthAction CUser CPartial))
    (s : AuthReducer.AuthState CUser * option string) :
  (Forall (fun a => a <> AuthReducer.LOGOUT CUser CPartial) actions ->
   snd (AuthReducer.dispatchAll CUser CPartial spread actions s) = snd s)
  /\ AuthReducer.dispatchAll CUser CPartial spread
       (actions ++ [AuthReducer.LOGOUT CUser CPartial])%list s
     = (AuthReducer.initialState CUser, None).
Proof.
  unfold AuthReducer.dispatchAll. split.
  - revert s. induction actions as [|a actions IH]; intros s H; [reflexivity|].
    apply Forall_cons in H as [Ha H]. cbn [foldl]. rewrite (IH _ H).
    destruct a; try reflexivity. contradiction Ha. reflexivity.
  - rewrite foldl_app. reflexivity.
Qed.
